(** * memex.views: the HTTP/REST API for annotations

    A shallow embedding of [src/memex/views.py].  The view functions are
    glue between the payload parser, the schema validator, the storage and
    search gateways, the presenters and the post-commit event queue.  The
    collaborators that live in other modules ([memex.storage],
    [memex.search], [memex.schemas], [memex.presenters], the route table)
    are parameters of the development; the view functions themselves are
    transcribed statement by statement. *)

From Stdlib Require Import ZArith String Ascii List.
From stdpp Require Import base option list strings gmap fin_maps.

Local Open Scope string_scope.
Local Open Scope Z_scope.

(** ** Python values *)

(** The dictionaries the views return to the JSON renderer, and the parsed
    request bodies they receive. *)
Local Unset Elimination Schemes.
Inductive json : Type :=
| JNull
| JBool (b : bool)
| JNum (n : Z)
| JStr (s : string)
| JList (l : list json)
| JDict (d : gmap string json).
Local Set Elimination Schemes.

(** What [params.pop('_separate_replies', False)] evaluates to: the raw
    string of the query parameter, or the default [False]. *)
Inductive pyval : Type :=
| PyBool (b : bool)
| PyStr (s : string).

(** Python truthiness of such a value, as tested by [if separate_replies:]. *)
Definition truthy (v : pyval) : bool :=
  match v with
  | PyBool b => b
  | PyStr s => negb (String.eqb s EmptyString)
  end.

(** ** Exceptions *)

(** An instance of [APIError] or of one of its subclasses: the message
    handed to [Exception.__init__] and the [status_code] attribute. *)
Record APIError : Type := mkAPIError {
  message : string;
  status_code : Z
}.

(** [APIError.__init__(self, message, status_code=500)]. *)
Definition APIError_init (message : string) (status_code : option Z) : APIError :=
  mkAPIError message (default 500 status_code).

(** [PayloadError.__init__]: the constructor of the base class called with
    the fixed message and [status_code=400]. *)
Definition PayloadError : APIError :=
  APIError_init "Expected a valid JSON payload, but none was found!" (Some 400).

(** An instance of [schemas.ValidationError]; the views only read its
    message. *)
Record ValidationError : Type := mkValidationError {
  validation_message : string
}.

(** The exceptions for which this module registers a view, by the class
    the view is registered for ([context=APIError] and
    [context=schemas.ValidationError]). *)
Inductive exn : Type :=
| ExcAPIError (e : APIError)
| ExcValidationError (e : ValidationError).

(** ** Strings: [str.replace] *)

Fixpoint str_prefix (p s : string) : bool :=
  match p, s with
  | EmptyString, _ => true
  | String a p', String b s' => Ascii.eqb a b && str_prefix p' s'
  | String _ _, EmptyString => false
  end.

(** Left-to-right scan of [s.replace(old, new)] for a non-empty [old]:
    [skip] counts the characters of a match that are still to be dropped. *)
Fixpoint replace_scan (old new : string) (skip : nat) (s : string) : string :=
  match s with
  | EmptyString => EmptyString
  | String c s' =>
      match skip with
      | S k => replace_scan old new k s'
      | O =>
          if str_prefix old s
          then new ++ replace_scan old new (Nat.pred (String.length old)) s'
          else String c (replace_scan old new 0 s')
      end
  end.

(** With an empty [old], Python puts [new] before every character and at
    the end. *)
Fixpoint replace_empty (new s : string) : string :=
  match s with
  | EmptyString => new
  | String c s' => new ++ String c (replace_empty new s')
  end.

Definition str_replace (s old new : string) : string :=
  match old with
  | EmptyString => replace_empty new s
  | String _ _ => replace_scan old new 0 s
  end.

(** [old] occurs in [s] as a substring. *)
Definition occurs (old s : string) : Prop :=
  exists p r, s = p ++ old ++ r.

(** ** Data model *)

(** The attributes of [models.Annotation] this layer reads ([ann_id] is the
    attribute [id]); the remaining fields are opaque to the views. *)
Record Annotation : Type := mkAnnotation {
  ann_id : string;
  target_uri : string;
  groupid : string;
  document : json
}.

(** The value returned by [search_lib.Search(...).run(params)]. *)
Record SearchResult : Type := mkSearchResult {
  total : Z;
  annotation_ids : list string;
  reply_ids : list string
}.

(** [request.response]. *)
Record Response : Type := mkResponse {
  response_status_code : Z;
  content_type : string;
  content_type_params : gmap string string
}.

(** The two schema objects the views build, with their constructor
    arguments. *)
Inductive Schema (Request : Type) : Type :=
| CreateAnnotationSchema (request : Request)
| UpdateAnnotationSchema (request : Request)
    (existing_target_uri : string) (groupid : string).
Arguments CreateAnnotationSchema {Request} request.
Arguments UpdateAnnotationSchema {Request} request existing_target_uri groupid.

(** Opaque types of the collaborators: the database session, the two
    services looked up on the request, and the stats client. *)
Class Types : Type := {
  DB : Type;
  GroupService : Type;
  LinksService : Type;
  Stats : Type
}.

(** [params.pop(key, default)] on the parameters of a request, a MultiDict:
    the items in the order given, a key possibly more than once.  The first
    item with the key is removed and its value returned; the later items
    with the key stay.  Without such an item the default is returned and
    the collection is as it was. *)
Fixpoint MultiDict_pop (key : string) (dflt : pyval)
    (items : list (string * string)) : pyval * list (string * string) :=
  match items with
  | [] => (dflt, [])
  | (k, v) :: rest =>
      if String.eqb k key then (PyStr v, rest)
      else
        let popped := MultiDict_pop key dflt rest in
        (popped.1, (k, v) :: popped.2)
  end.

Section DataModel.
Context `{Types}.

(** The parts of the request that a view only reads. *)
Record Request : Type := mkRequest {
  json_body : option json;   (* [None]: reading [request.json_body] raises ValueError *)
  stats : option Stats       (* [getattr(request, 'stats', None)] *)
}.

(** [AnnotationResource(annotation, group_service, links_service)]; the
    [context] of the read, update and delete views is one. *)
Record AnnotationResource : Type := mkAnnotationResource {
  annotation : Annotation;
  group_service : GroupService;
  links_service : LinksService
}.

(** [AnnotationEvent(request, annotation_id, action)]. *)
Record AnnotationEvent : Type := mkAnnotationEvent {
  event_request : Request;
  event_annotation_id : string;
  event_action : string
}.

(** The mutable objects reachable from the request: the database session
    [request.db], the parameter collection [request.params], the response
    [request.response], and the events handed to
    [request.notify_after_commit], oldest first. *)
Record World : Type := mkWorld {
  db : DB;
  params : list (string * string);
  response : Response;
  after_commit : list AnnotationEvent
}.

Definition set_db (d : DB) (w : World) : World :=
  mkWorld d (params w) (response w) (after_commit w).
Definition set_response (r : Response) (w : World) : World :=
  mkWorld (db w) (params w) r (after_commit w).
Definition set_after_commit (q : list AnnotationEvent) (w : World) : World :=
  mkWorld (db w) (params w) (response w) q.

(** *** The monad of a view: state and exceptions *)

Definition M (A : Type) : Type := World -> (exn + A) * World.

Definition ret {A} (a : A) : M A := fun w => (inr a, w).
Definition raise {A} (e : exn) : M A := fun w => (inl e, w).
Definition bind {A B} (m : M A) (k : A -> M B) : M B :=
  fun w =>
    match m w with
    | (inl e, w') => (inl e, w')
    | (inr a, w') => k a w'
    end.
Definition get : M World := fun w => (inr w, w).
Definition modify (f : World -> World) : M unit := fun w => (inr tt, f w).
Definition lift {A} (r : exn + A) : M A := fun w => (r, w).

End DataModel.

Declare Scope view_scope.
Delimit Scope view_scope with view.
Notation "x <- m ;; k" := (bind m (fun x => k))
  (at level 100, m at next level, right associativity) : view_scope.
Notation "m ;;; k" := (bind m (fun _ => k))
  (at level 100, right associativity) : view_scope.

(** *** Collaborators *)

Class Collaborators `{Types} : Type := {
  (** [request.find_service(IGroupService)] and
      [request.find_service(name='links')]. *)
  find_service_IGroupService : Request -> GroupService;
  find_service_links : Request -> LinksService;

  (** [schema.validate(data)]: the validated appstruct, or the exception
      the schema raises. *)
  Schema_validate : Schema Request -> json -> exn + json;

  (** [memex.storage].  A call that raises leaves the session as it was. *)
  storage_create_annotation :
    Request -> json -> GroupService -> DB -> exn + (Annotation * DB);
  storage_update_annotation : DB -> string -> json -> exn + (Annotation * DB);
  storage_delete_annotation : DB -> string -> exn + DB;
  storage_fetch_ordered_annotations : DB -> list string -> list Annotation;

  (** [search_lib.Search(request, separate_replies=..., stats=...).run(params)]. *)
  Search_run :
    Request -> pyval -> option Stats -> list (string * string) -> SearchResult;

  (** [AnnotationJSONPresenter(resource).asdict()] and its JSON-LD
      counterpart, with the latter's class constant [CONTEXT_URL]. *)
  AnnotationJSONPresenter_asdict : AnnotationResource -> json;
  AnnotationJSONLDPresenter_asdict : AnnotationResource -> json;
  CONTEXT_URL : string;

  (** [request.route_url(route_name, **kw)]. *)
  route_url : Request -> string -> list (string * string) -> string
}.

(** ** The views *)

Section Views.
Context `{Collaborators}.
Local Open Scope view_scope.

(** Modelled from the spec: [request.notify_after_commit], which is not
    defined in this module.  The event is registered with the enclosing
    transaction, to be fired once the transaction succeeds and discarded
    on rollback. *)
Definition notify_after_commit (event : AnnotationEvent) : M unit :=
  modify (fun w => set_after_commit (after_commit w ++ [event]) w).

(** Modelled from the spec: the transaction around a view, which is not
    defined in this module.  When the view returns, the session is
    committed and the registered events are delivered; when it raises,
    the session is rolled back and the registered events are dropped.
    The last component lists the events delivered. *)
Definition run_in_transaction {A} (view : M A) (w : World)
  : (exn + A) * World * list AnnotationEvent :=
  match view w with
  | (inr a, w') => (inr a, set_after_commit [] w', after_commit w')
  | (inl e, w') => (inl e, set_after_commit [] (set_db (db w) w'), [])
  end.

(** [error_api(context, request)], registered for [context=APIError]. *)
Definition error_api (context : APIError) (request : Request) : M json :=
  modify (fun w =>
    set_response (mkResponse (status_code context)
                    (content_type (response w))
                    (content_type_params (response w))) w) ;;;
  ret (JDict {[ "status" := JStr "failure";
                "reason" := JStr (message context) ]}).

(** [error_validation(context, request)], registered for
    [context=schemas.ValidationError]. *)
Definition error_validation (context : ValidationError) (request : Request)
  : M json :=
  modify (fun w =>
    set_response (mkResponse 400
                    (content_type (response w))
                    (content_type_params (response w))) w) ;;;
  ret (JDict {[ "status" := JStr "failure";
                "reason" := JStr (validation_message context) ]}).

(** The exception view the framework selects for an exception raised by
    a view, by the class each one is registered for. *)
Definition exception_view (e : exn) (request : Request) : M json :=
  match e with
  | ExcAPIError context => error_api context request
  | ExcValidationError context => error_validation context request
  end.

(** [index(context, request)]: the API descriptor document. *)
Definition index (context : unit) (request : Request) : M json :=
  let annotation_url :=
    str_replace (route_url request "api.annotation" [("id", "123")])
                "123" ":id" in
  ret (JDict {[
    "message" := JStr "Annotator Store API";
    "links" := JDict {[
      "annotation" := JDict {[
        "create" := JDict {[
          "method" := JStr "POST";
          "url" := JStr (route_url request "api.annotations" []);
          "desc" := JStr "Create a new annotation" ]};
        "read" := JDict {[
          "method" := JStr "GET";
          "url" := JStr annotation_url;
          "desc" := JStr "Get an existing annotation" ]};
        "update" := JDict {[
          "method" := JStr "PUT";
          "url" := JStr annotation_url;
          "desc" := JStr "Update an existing annotation" ]};
        "delete" := JDict {[
          "method" := JStr "DELETE";
          "url" := JStr annotation_url;
          "desc" := JStr "Delete an annotation" ]} ]};
      "search" := JDict {[
        "method" := JStr "GET";
        "url" := JStr (route_url request "api.search" []);
        "desc" := JStr "Basic search API" ]} ]} ]}).

(** [_json_payload(request)]. *)
Definition _json_payload (request : Request) : M json :=
  match json_body request with
  | Some payload => ret payload
  | None => raise (ExcAPIError PayloadError)
  end.

(** [_present_annotations(request, ids)].  The [query_processor] handed
    to the storage is an eager-loading hint and does not select or order
    records. *)
Definition _present_annotations (request : Request) (ids : list string)
  : M (list json) :=
  w <- get ;;
  let annotations := storage_fetch_ordered_annotations (db w) ids in
  let group_service := find_service_IGroupService request in
  let links_service := find_service_links request in
  ret (map (fun ann =>
              AnnotationJSONPresenter_asdict
                (mkAnnotationResource ann group_service links_service))
           annotations).

(** [_publish_annotation_event(request, annotation, action)]. *)
Definition _publish_annotation_event
    (request : Request) (annotation : Annotation) (action : string)
  : M unit :=
  let event := mkAnnotationEvent request (ann_id annotation) action in
  notify_after_commit event.

(** [search(request)]. *)
Definition search (request : Request) : M json :=
  w <- get ;;
  let params := params w in    (* request.params.copy() *)
  let '(separate_replies, params) :=
    MultiDict_pop "_separate_replies" (PyBool false) params in
  let stats := stats request in
  let result := Search_run request separate_replies stats params in
  rows <- _present_annotations request (annotation_ids result) ;;
  let out : gmap string json :=
    {[ "total" := JNum (total result); "rows" := JList rows ]} in
  if truthy separate_replies then
    replies <- _present_annotations request (reply_ids result) ;;
    ret (JDict (<["replies" := JList replies]> out))
  else
    ret (JDict out).

(** Calls into the storage, on the session of the request. *)
Definition with_db {A} (call : DB -> exn + (A * DB)) : M A :=
  fun w =>
    match call (db w) with
    | inl e => (inl e, w)
    | inr (a, d) => (inr a, set_db d w)
    end.

(** [create(request)]. *)
Definition create (request : Request) : M json :=
  let schema := CreateAnnotationSchema request in
  payload <- _json_payload request ;;
  appstruct <- lift (Schema_validate schema payload) ;;
  let group_service := find_service_IGroupService request in
  annotation <- with_db
    (storage_create_annotation request appstruct group_service) ;;
  _publish_annotation_event request annotation "create" ;;;
  let links_service := find_service_links request in
  let group_service := find_service_IGroupService request in
  let resource := mkAnnotationResource annotation group_service links_service in
  ret (AnnotationJSONPresenter_asdict resource).

(** [read(context, request)]. *)
Definition read (context : AnnotationResource) (request : Request) : M json :=
  ret (AnnotationJSONPresenter_asdict context).

(** [read_jsonld(context, request)]. *)
Definition read_jsonld (context : AnnotationResource) (request : Request)
  : M json :=
  modify (fun w =>
    set_response (mkResponse (response_status_code (response w))
                    "application/ld+json"
                    (content_type_params (response w))) w) ;;;
  modify (fun w =>
    set_response (mkResponse (response_status_code (response w))
                    (content_type (response w))
                    {[ "profile" := CONTEXT_URL ]}) w) ;;;
  ret (AnnotationJSONLDPresenter_asdict context).

(** [update(context, request)]. *)
Definition update (context : AnnotationResource) (request : Request)
  : M json :=
  let schema := UpdateAnnotationSchema request
                  (target_uri (annotation context))
                  (groupid (annotation context)) in
  payload <- _json_payload request ;;
  appstruct <- lift (Schema_validate schema payload) ;;
  annotation <- with_db (fun d =>
    storage_update_annotation d (ann_id (annotation context)) appstruct) ;;
  _publish_annotation_event request annotation "update" ;;;
  let links_service := find_service_links request in
  let group_service := find_service_IGroupService request in
  let resource := mkAnnotationResource annotation group_service links_service in
  ret (AnnotationJSONPresenter_asdict resource).

(** [delete(context, request)]. *)
Definition delete (context : AnnotationResource) (request : Request)
  : M json :=
  with_db (fun d =>
    match storage_delete_annotation d (ann_id (annotation context)) with
    | inl e => inl e
    | inr d' => inr (tt, d')
    end) ;;;
  _publish_annotation_event request (annotation context) "delete" ;;;
  ret (JDict {[ "id" := JStr (ann_id (annotation context));
                "deleted" := JBool true ]}).

End Views.

(** ** View configuration *)

(** The values that occur in the settings of a view: [None], booleans,
    strings, tuples, names of classes and constants of other modules, and
    the decorator [cors.policy(...)] built from its keyword arguments. *)
Local Unset Elimination Schemes.
Inductive pyobj : Type :=
| ONone
| OBool (b : bool)
| OStr (s : string)
| OTuple (items : list pyobj)
| OName (qualified_name : string)
| OCors (allow_headers allow_methods : list string) (allow_preflight : bool).
Local Set Elimination Schemes.

(** [cors_policy]. *)
Definition cors_policy : pyobj :=
  OCors ["Authorization"; "Content-Type"; "X-Annotator-Auth-Token"; "X-Client-Id"]
        ["HEAD"; "GET"; "POST"; "PUT"; "DELETE"]
        true.

(** [settings.setdefault(key, value)]. *)
Definition setdefault (key : string) (value : pyobj) (settings : gmap string pyobj)
  : gmap string pyobj :=
  match settings !! key with
  | Some _ => settings
  | None => <[key := value]> settings
  end.

(** [api_config], applied to its keyword arguments [settings]: the
    settings it hands to [view_config]. *)
Definition api_config (settings : gmap string pyobj) : gmap string pyobj :=
  let settings := setdefault "accept" (OStr "application/json") settings in
  let settings := setdefault "renderer" (OStr "json") settings in
  let settings := setdefault "decorator" cors_policy settings in
  let request_method := default (OTuple []) (settings !! "request_method") in
  let request_method :=
    match request_method with
    | OTuple items => items
    | other => [other]
    end in
  let request_method :=
    if Nat.eqb (length request_method) 0
    then [OStr "DELETE"; OStr "GET"; OStr "HEAD"; OStr "POST"; OStr "PUT"]
    else request_method in
  <["request_method" := OTuple (request_method ++ [OStr "OPTIONS"])]> settings.

(** The [@api_config(...)] decorators of the module, by decorated function,
    in the order of the file. *)
Definition view_settings : list (string * gmap string pyobj) :=
  [ ("error_api", {[ "context" := OName "APIError" ]});
    ("error_validation", {[ "context" := OName "schemas.ValidationError" ]});
    ("index", {[ "route_name" := OStr "api.index" ]});
    ("search", {[ "route_name" := OStr "api.search" ]});
    ("create", {[ "route_name" := OStr "api.annotations";
                  "request_method" := OStr "POST";
                  "effective_principals" := OName "security.Authenticated" ]});
    ("read", {[ "route_name" := OStr "api.annotation";
                "request_method" := OStr "GET";
                "permission" := OStr "read" ]});
    ("read_jsonld", {[ "route_name" := OStr "api.annotation.jsonld";
                       "request_method" := OStr "GET";
                       "permission" := OStr "read" ]});
    ("update", {[ "route_name" := OStr "api.annotation";
                  "request_method" := OStr "PUT";
                  "permission" := OStr "update" ]});
    ("delete", {[ "route_name" := OStr "api.annotation";
                  "request_method" := OStr "DELETE";
                  "permission" := OStr "delete" ]}) ].

(** What [config.scan] finds: each decorated function with the settings
    its decorator passes on. *)
Definition registered_views : list (string * gmap string pyobj) :=
  map (fun entry => (entry.1, api_config entry.2)) view_settings.

(** The configuration registered for the function of the given name. *)
Definition config_of (name : string) : gmap string pyobj :=
  match List.find (fun entry => String.eqb entry.1 name) registered_views with
  | Some entry => entry.2
  | None => ∅
  end.

(** The strings of the [request_method] tuple of a configuration. *)
Definition methods_of (config : gmap string pyobj) : list string :=
  match config !! "request_method" with
  | Some (OTuple items) =>
      omap (fun item => match item with OStr m => Some m | _ => None end) items
  | _ => []
  end.

(** The methods two configurations of the same route both accept; none
    when the routes differ or one of them has no route. *)
Definition shared_methods (config1 config2 : gmap string pyobj) : list string :=
  match config1 !! "route_name", config2 !! "route_name" with
  | Some (OStr route1), Some (OStr route2) =>
      if String.eqb route1 route2
      then List.filter (fun m => existsb (String.eqb m) (methods_of config2))
             (methods_of config1)
      else []
  | _, _ => []
  end.

(** The [allow_methods] of a CORS decorator. *)
Definition cors_allow_methods (decorator : pyobj) : list string :=
  match decorator with
  | OCors _ allow_methods _ => allow_methods
  | _ => []
  end.

(** The request methods the module falls back on, and the defaults of the
    other settings. *)
Definition default_methods : list pyobj :=
  [OStr "DELETE"; OStr "GET"; OStr "HEAD"; OStr "POST"; OStr "PUT"].

Definition default_settings : gmap string pyobj :=
  {[ "accept" := OStr "application/json";
     "renderer" := OStr "json";
     "decorator" := cors_policy ]}.

Section Dispatch.
Context `{Collaborators}.

(** Modelled from the spec: the framework's handling of a request, which is
    not part of this module.  The body the view returns goes to the
    renderer; what the view raises goes to the exception view registered
    for it. *)
Definition respond (view : M json) (request : Request) : M json :=
  fun w =>
    match view w with
    | (inr body, w') => (inr body, w')
    | (inl e, w') => exception_view e request w'
    end.

End Dispatch.

(** ** Vocabulary of the properties *)

(** [old] occurs in [s], decided by scanning the suffixes of [s]. *)
Fixpoint contains (old s : string) : bool :=
  str_prefix old s
  || match s with
     | EmptyString => false
     | String _ s' => contains old s'
     end.

(** How often a key is given among the parameters of a request. *)
Definition occurrences (key : string) (items : list (string * string)) : nat :=
  length (List.filter (fun item => String.eqb item.1 key) items).

(** The failure envelope with the given reason. *)
Definition envelope (reason : string) : json :=
  JDict {[ "status" := JStr "failure"; "reason" := JStr reason ]}.

(** The value found in a document by following keys through nested
    dictionaries. *)
Fixpoint json_get (path : list string) (j : json) : option json :=
  match path with
  | [] => Some j
  | key :: path' =>
      match j with
      | JDict d => match d !! key with
                   | Some j' => json_get path' j'
                   | None => None
                   end
      | _ => None
      end
  end.

Section Vocabulary.
Context `{Types}.

(** The same collaborators with another search gateway. *)
Definition with_Search_run (C : Collaborators)
    (run : Request -> pyval -> option Stats -> list (string * string)
           -> SearchResult)
  : Collaborators := {|
  find_service_IGroupService := @find_service_IGroupService _ C;
  find_service_links := @find_service_links _ C;
  Schema_validate := @Schema_validate _ C;
  storage_create_annotation := @storage_create_annotation _ C;
  storage_update_annotation := @storage_update_annotation _ C;
  storage_delete_annotation := @storage_delete_annotation _ C;
  storage_fetch_ordered_annotations := @storage_fetch_ordered_annotations _ C;
  Search_run := run;
  AnnotationJSONPresenter_asdict := @AnnotationJSONPresenter_asdict _ C;
  AnnotationJSONLDPresenter_asdict := @AnnotationJSONLDPresenter_asdict _ C;
  CONTEXT_URL := @CONTEXT_URL _ C;
  route_url := @route_url _ C
|}.

(** A run of a mutating view registers exactly one event, for [action], on
    the post-commit queue when it returns, and leaves the whole state as it
    was (no event, no change to the session) when it raises. *)
Definition publishes_once (view : M json) (request : Request)
    (action : string) (w : World) : Prop :=
  match view w with
  | (inr _, w') =>
      exists i, after_commit w'
                = (after_commit w ++ [mkAnnotationEvent request i action])%list
  | (inl _, w') => w' = w
  end.

(** The state in which only the status code of the response has changed. *)
Definition with_status (code : Z) (w : World) : World :=
  set_response (mkResponse code (content_type (response w))
                  (content_type_params (response w))) w.

End Vocabulary.

(** The presentation of an annotation with the services of the request. *)
Definition presented `{Collaborators} (request : Request) (ann : Annotation)
  : json :=
  AnnotationJSONPresenter_asdict
    (mkAnnotationResource ann (find_service_IGroupService request)
       (find_service_links request)).

(** The same run under the transaction: one event is delivered, after the
    commit, when the view returns; none is delivered and the session is
    rolled back when it raises. *)
Definition delivers_once `{Collaborators} (view : M json) (request : Request)
    (action : string) (w : World) : Prop :=
  match run_in_transaction view w with
  | (inr _, w', delivered) =>
      exists i, delivered
                = (after_commit w ++ [mkAnnotationEvent request i action])%list
  | (inl _, w', delivered) => delivered = [] /\ db w' = db w
  end.

(** ** A concrete instance of the collaborators

    An in-memory storage and a fixed search index, on which the views can
    be run. *)

Module Demo.

#[export] Instance types : Types := {|
  DB := list Annotation;
  GroupService := unit;
  LinksService := unit;
  Stats := unit
|}.

Definition has_id (i : string) (a : Annotation) : bool :=
  String.eqb (ann_id a) i.

Definition str_field (key : string) (j : json) : option string :=
  match j with
  | JDict d => match d !! key with Some (JStr s) => Some s | _ => None end
  | _ => None
  end.

(** Both schemas require a string field [text]; the update schema also
    refuses to move the annotation to another group. *)
Definition validate (schema : Schema Request) (payload : json) : exn + json :=
  match str_field "text" payload with
  | None => inl (ExcValidationError (mkValidationError "text: is required"))
  | Some _ =>
      match schema with
      | CreateAnnotationSchema _ => inr payload
      | UpdateAnnotationSchema _ _ g =>
          match str_field "group" payload with
          | Some g' =>
              if String.eqb g g' then inr payload
              else inl (ExcValidationError
                          (mkValidationError "group: may not be changed"))
          | None => inr payload
          end
      end
  end.

Definition create_annotation (request : Request) (appstruct : json)
    (gs : unit) (d : list Annotation) : exn + (Annotation * list Annotation) :=
  let a := mkAnnotation "new"
             (default EmptyString (str_field "uri" appstruct))
             (default "__world__" (str_field "group" appstruct))
             appstruct in
  inr (a, (d ++ [a])%list).

Definition update_annotation (d : list Annotation) (i : string)
    (appstruct : json) : exn + (Annotation * list Annotation) :=
  match List.find (has_id i) d with
  | None => inl (ExcAPIError (APIError_init "annotation not found" (Some 404)))
  | Some old =>
      let a := mkAnnotation i
                 (default (target_uri old) (str_field "uri" appstruct))
                 (groupid old) appstruct in
      inr (a, map (fun b => if has_id i b then a else b) d)
  end.

Definition delete_annotation (d : list Annotation) (i : string)
  : exn + list Annotation :=
  inr (List.filter (fun b => negb (has_id i b)) d).

Definition fetch_ordered_annotations (d : list Annotation) (ids : list string)
  : list Annotation :=
  omap (fun i => List.find (has_id i) d) ids.

(** The index ranks [b] before [a] and knows one reply, [c]; it reports
    nothing at all when asked about a parameter [_separate_replies]. *)
Definition run (request : Request) (separate_replies : pyval)
    (stats : option unit) (q : list (string * string)) : SearchResult :=
  match List.find (fun item => String.eqb item.1 "_separate_replies") q with
  | Some _ => mkSearchResult 0 [] []
  | None =>
      if truthy separate_replies
      then mkSearchResult 2 ["b"; "a"] ["c"]
      else mkSearchResult 3 ["b"; "c"; "a"] []
  end.

Definition asdict (r : AnnotationResource) : json :=
  JDict {[ "id" := JStr (ann_id (annotation r));
           "uri" := JStr (target_uri (annotation r)) ]}.

Definition asdict_ld (r : AnnotationResource) : json :=
  JDict {[ "@context" := JStr "http://www.w3.org/ns/anno.jsonld";
           "id" := JStr (ann_id (annotation r)) ]}.

(** The application is served from a host whose name contains [123]. *)
Definition url (request : Request) (route : string)
    (kw : list (string * string)) : string :=
  if String.eqb route "api.annotation" then
    "http://h123.example/api/annotations/"
      ++ default EmptyString
           (snd <$> List.find (fun p => String.eqb (fst p) "id") kw)
  else if String.eqb route "api.annotations" then
    "http://h123.example/api/annotations"
  else "http://h123.example/api/search".

#[export] Instance collaborators : Collaborators := {|
  find_service_IGroupService := fun _ => tt;
  find_service_links := fun _ => tt;
  Schema_validate := validate;
  storage_create_annotation := create_annotation;
  storage_update_annotation := update_annotation;
  storage_delete_annotation := delete_annotation;
  storage_fetch_ordered_annotations := fetch_ordered_annotations;
  Search_run := run;
  AnnotationJSONPresenter_asdict := asdict;
  AnnotationJSONLDPresenter_asdict := asdict_ld;
  CONTEXT_URL := "http://www.w3.org/ns/anno.jsonld";
  route_url := url
|}.

Definition ann_a : Annotation :=
  mkAnnotation "a" "http://example.com/a" "__world__" JNull.
Definition ann_b : Annotation :=
  mkAnnotation "b" "http://example.com/b" "__world__" JNull.
Definition ann_c : Annotation :=
  mkAnnotation "c" "http://example.com/a" "__world__" JNull.

Definition response0 : Response := mkResponse 200 "application/json" ∅.

Definition world0 : World :=
  mkWorld [ann_a; ann_b; ann_c] [] response0 [].

(** A request without a JSON body, and one with a valid payload. *)
Definition request_nobody : Request := mkRequest None None.
Definition request_hello : Request :=
  mkRequest
    (Some (JDict {[ "text" := JStr "hello"; "uri" := JStr "http://x" ]}))
    None.
Definition request_notext : Request :=
  mkRequest (Some (JDict {[ "uri" := JStr "http://x" ]})) None.

Definition context_a : AnnotationResource := mkAnnotationResource ann_a tt tt.

(** The payload of [request_hello], and a request that tries to move the
    annotation to another group. *)
Definition payload_hello : json :=
  JDict {[ "text" := JStr "hello"; "uri" := JStr "http://x" ]}.

Definition request_regroup : Request :=
  mkRequest
    (Some (JDict {[ "text" := JStr "hello"; "group" := JStr "private" ]}))
    None.

(** The state of a request with the query string [_separate_replies=v]. *)
Definition world_flag (v : string) : World :=
  mkWorld [ann_a; ann_b; ann_c] [("_separate_replies", v)] response0 [].

(** The state of a request with the query string
    [_separate_replies=1&_separate_replies=2]. *)
Definition world_repeated : World :=
  mkWorld [ann_a; ann_b; ann_c]
    [("_separate_replies", "1"); ("_separate_replies", "2")] response0 [].

(** A gateway that differs from [run] on every parameter collection that
    still has the key. *)
Definition run_lenient (request : Request) (separate_replies : pyval)
    (stats : option unit) (q : list (string * string)) : SearchResult :=
  if truthy separate_replies
  then mkSearchResult 2 ["b"; "a"] ["c"]
  else mkSearchResult 3 ["b"; "c"; "a"] [].

(** The same application served from a host without [123] in its name,
    over a storage that refuses deletions. *)
Definition url_plain (request : Request) (route : string)
    (kw : list (string * string)) : string :=
  if String.eqb route "api.annotation" then
    "http://h.example/api/annotations/"
      ++ default EmptyString
           (snd <$> List.find (fun p => String.eqb (fst p) "id") kw)
  else if String.eqb route "api.annotations" then
    "http://h.example/api/annotations"
  else "http://h.example/api/search".

Definition delete_refused (d : list Annotation) (i : string)
  : exn + list Annotation :=
  inl (ExcAPIError (APIError_init "annotation is locked" (Some 409))).

Definition frozen : Collaborators := {|
  find_service_IGroupService := fun _ => tt;
  find_service_links := fun _ => tt;
  Schema_validate := validate;
  storage_create_annotation := create_annotation;
  storage_update_annotation := update_annotation;
  storage_delete_annotation := delete_refused;
  storage_fetch_ordered_annotations := fetch_ordered_annotations;
  Search_run := run;
  AnnotationJSONPresenter_asdict := asdict;
  AnnotationJSONLDPresenter_asdict := asdict_ld;
  CONTEXT_URL := "http://www.w3.org/ns/anno.jsonld";
  route_url := url_plain
|}.

(** The context of an annotation that is not in the storage. *)
Definition context_gone : AnnotationResource :=
  mkAnnotationResource
    (mkAnnotation "gone" "http://example.com/gone" "__world__" JNull) tt tt.

(** Settings as a caller of [api_config] may pass them. *)
Definition settings_two_methods : gmap string pyobj :=
  {[ "route_name" := OStr "api.annotation";
     "request_method" := OTuple [OStr "GET"; OStr "HEAD"];
     "renderer" := OStr "string" ]}.

End Demo.

(** * Properties *)

(** ** [str.replace] of [123] by [:id] *)

Lemma append_nil (r : string) : EmptyString ++ r = r.
Proof. reflexivity. Qed.

Lemma append_cons (c : ascii) (s r : string) :
  String c s ++ r = String c (s ++ r).
Proof. reflexivity. Qed.

Lemma str_prefix_app (old r : string) : str_prefix old (old ++ r) = true.
Proof.
  induction old as [|a old IH]; [reflexivity|].
  rewrite append_cons. cbn [str_prefix]. rewrite Ascii.eqb_refl. exact IH.
Qed.

Lemma occurs_contains (old s : string) : occurs old s -> contains old s = true.
Proof.
  intros (p & r & ->). induction p as [|c p IH].
  - rewrite append_nil. destruct (old ++ r) eqn:Hs; cbn [contains];
      rewrite <- Hs, str_prefix_app; reflexivity.
  - rewrite append_cons. cbn [contains]. rewrite IH. apply orb_true_r.
Qed.

(** An occurrence of [123] is replaced wherever it starts, also after a
    prefix that has occurrences of its own. *)
Lemma replace_scan_app (r p : string) (k : nat) :
  (k <= String.length p)%nat ->
  replace_scan "123" ":id" k (p ++ "123" ++ r)
  = replace_scan "123" ":id" k p ++ ":id" ++ replace_scan "123" ":id" 0 r.
Proof.
  revert k. induction p as [|c p IH]; intros k Hk.
  - cbn in Hk. assert (k = 0%nat) as -> by lia. reflexivity.
  - destruct k as [|k].
    2:{ rewrite append_cons. cbn [replace_scan]. apply IH. cbn in Hk. lia. }
    specialize (IH 0%nat (Nat.le_0_l _)) as IH0.
    rewrite (append_cons c p). cbn [replace_scan].
    destruct (str_prefix "123" (String c p)) eqn:Hp.
    + (* the prefix itself starts with a match *)
      destruct p as [|c2 [|c3 p]]; cbn [str_prefix] in Hp; try discriminate.
      * rewrite !andb_false_r in Hp. discriminate.
      * rewrite !andb_false_r in Hp. discriminate.
      * apply andb_prop in Hp as [H1 [H2 [H3 _]%andb_prop]%andb_prop].
        apply Ascii.eqb_eq in H1, H2, H3. subst.
        rewrite !(append_cons _ _ ("123" ++ r)).
        cbn [str_prefix Ascii.eqb Bool.eqb andb String.length Nat.pred replace_scan].
        specialize (IH 2%nat ltac:(cbn; lia)).
        rewrite !(append_cons _ _ ("123" ++ r)) in IH.
        cbn [replace_scan] in IH. rewrite IH. reflexivity.
    + destruct (str_prefix "123" (String c (p ++ "123" ++ r))) eqn:Hq.
      * exfalso.
        destruct p as [|c2 [|c3 p]];
          rewrite ?append_nil, ?(append_cons _ _ ("123" ++ r)) in Hq;
          cbn [str_prefix] in Hp, Hq.
        -- change ("123" ++ r) with (String "1" ("23" ++ r)) in Hq.
           cbn [str_prefix] in Hq.
           apply andb_prop in Hq as [_ [Hq _]%andb_prop]. discriminate.
        -- change ("123" ++ r) with (String "1" ("23" ++ r)) in Hq.
           cbn [str_prefix] in Hq.
           apply andb_prop in Hq as [_ [_ [Hq _]%andb_prop]%andb_prop].
           discriminate.
        -- rewrite andb_true_r in Hp.
           apply andb_prop in Hq as [H1 [H2 [H3 _]%andb_prop]%andb_prop].
           rewrite H1, H2, H3 in Hp. discriminate.
      * rewrite IH0. reflexivity.
Qed.

Lemma str_prefix_cons (a b : ascii) (p s : string) :
  str_prefix (String a p) (String b s) = Ascii.eqb a b && str_prefix p s.
Proof. reflexivity. Qed.

(** The first characters of the result of a scan are those of its input
    when they are characters of [123]. *)
Lemma replace_scan_prefix_3 (s : string) :
  str_prefix "3" (replace_scan "123" ":id" 0 s) = true -> str_prefix "3" s = true.
Proof.
  destruct s as [|c s]; [discriminate|].
  cbn [replace_scan]. destruct (str_prefix "123" (String c s)); [discriminate|].
  exact (fun Hp => Hp).
Qed.

Lemma replace_scan_prefix_23 (s : string) :
  str_prefix "23" (replace_scan "123" ":id" 0 s) = true -> str_prefix "23" s = true.
Proof.
  destruct s as [|c s]; [discriminate|].
  cbn [replace_scan]. destruct (str_prefix "123" (String c s)); [discriminate|].
  rewrite !str_prefix_cons. intros [Hc Hs]%andb_prop.
  rewrite Hc. apply (replace_scan_prefix_3 s), Hs.
Qed.

Lemma replace_scan_prefix_123 (s : string) :
  str_prefix "123" (replace_scan "123" ":id" 0 s) = false.
Proof.
  destruct s as [|c s]; [reflexivity|].
  cbn [replace_scan]. destruct (str_prefix "123" (String c s)) eqn:Hs;
    [reflexivity|].
  rewrite str_prefix_cons in *.
  destruct (Ascii.eqb "1" c); [|reflexivity]. cbn [andb] in *.
  destruct (str_prefix "23" (replace_scan "123" ":id" 0 s)) eqn:Hp;
    [|reflexivity].
  apply replace_scan_prefix_23 in Hp. congruence.
Qed.

(** No [123] is left in the result. *)
Lemma replace_scan_clean (s : string) (k : nat) :
  contains "123" (replace_scan "123" ":id" k s) = false.
Proof.
  revert k. induction s as [|c s IH]; intros k; [destruct k; reflexivity|].
  destruct k as [|k]; [|apply IH].
  pose proof (replace_scan_prefix_123 (String c s)) as Hp.
  cbn [replace_scan] in *.
  destruct (str_prefix "123" (String c s)).
  - cbn [String.length Nat.pred].
    change (":id" ++ ?x) with (String ":" (String "i" (String "d" x))).
    cbn [contains str_prefix Ascii.eqb Bool.eqb andb orb]. apply IH.
  - cbn [contains]. rewrite Hp, IH. reflexivity.
Qed.

Section Properties.
Context `{C : Collaborators}.

(** ** Error normalization *)

Lemma error_api_run (context : APIError) (request : Request) (w : World) :
  error_api context request w
  = (inr (envelope (message context)), with_status (status_code context) w).
Proof. reflexivity. Qed.

Lemma error_validation_run (context : ValidationError) (request : Request)
    (w : World) :
  error_validation context request w
  = (inr (envelope (validation_message context)), with_status 400 w).
Proof. reflexivity. Qed.

(** C3: every exception a view raises is rendered as the envelope
    [{"status": "failure", "reason": <message>}]; the status code is the
    exception's own for an [APIError] (400 for a [PayloadError], 500 when
    an [APIError] is built without one) and 400 for a validation error;
    body and status code are a function of the exception alone, whatever
    request and state it was raised in. *)
Theorem error_envelope_uniform :
  (forall (context : APIError) request w,
      exception_view (ExcAPIError context) request w
      = (inr (envelope (message context)),
         with_status (status_code context) w))
  /\ (forall (context : ValidationError) request w,
      exception_view (ExcValidationError context) request w
      = (inr (envelope (validation_message context)), with_status 400 w))
  /\ (forall request w,
      response_status_code
        (response (exception_view (ExcAPIError PayloadError) request w).2)
      = 400)
  /\ (forall msg request w,
      response_status_code
        (response
           (exception_view (ExcAPIError (APIError_init msg None)) request w).2)
      = 500)
  /\ (forall e request1 request2 w1 w2,
      (exception_view e request1 w1).1 = (exception_view e request2 w2).1
      /\ response_status_code (response (exception_view e request1 w1).2)
         = response_status_code (response (exception_view e request2 w2).2)).
Proof.
  repeat split; intros; try reflexivity; destruct e; reflexivity.
Qed.

(** ** Payload parsing *)

Lemma json_payload_missing (request : Request) (w : World) :
  json_body request = None ->
  _json_payload request w = (inl (ExcAPIError PayloadError), w).
Proof. intros Hbody. unfold _json_payload. rewrite Hbody. reflexivity. Qed.

Lemma json_payload_present (request : Request) (payload : json) (w : World) :
  json_body request = Some payload ->
  _json_payload request w = (inr payload, w).
Proof. intros Hbody. unfold _json_payload. rewrite Hbody. reflexivity. Qed.

(** C4: when the body of a create or update request cannot be parsed as
    JSON, the view raises [PayloadError], whose status code is 400 and
    whose message is the fixed string, and leaves the state untouched; the
    exception view turns it into status 400 and the envelope carrying
    that message. *)
Theorem malformed_json_payload_error
    (context : AnnotationResource) (request : Request) (w : World) :
  json_body request = None ->
  create request w = (inl (ExcAPIError PayloadError), w)
  /\ update context request w = (inl (ExcAPIError PayloadError), w)
  /\ status_code PayloadError = 400
  /\ message PayloadError
     = "Expected a valid JSON payload, but none was found!"
  /\ exception_view (ExcAPIError PayloadError) request w
     = (inr (envelope "Expected a valid JSON payload, but none was found!"),
        with_status 400 w).
Proof.
  intros Hbody. repeat split.
  - unfold create, bind. rewrite (json_payload_missing _ _ Hbody). reflexivity.
  - unfold update, bind. rewrite (json_payload_missing _ _ Hbody). reflexivity.
Qed.

(** ** Mutating views *)

(** What [create] does, step by step. *)
Lemma create_run (request : Request) (w : World) :
  create request w =
  match json_body request with
  | None => (inl (ExcAPIError PayloadError), w)
  | Some payload =>
      match Schema_validate (CreateAnnotationSchema request) payload with
      | inl e => (inl e, w)
      | inr appstruct =>
          match storage_create_annotation request appstruct
                  (find_service_IGroupService request) (db w) with
          | inl e => (inl e, w)
          | inr (ann, d) =>
              (inr (AnnotationJSONPresenter_asdict
                      (mkAnnotationResource ann
                         (find_service_IGroupService request)
                         (find_service_links request))),
               set_after_commit
                 (after_commit w ++ [mkAnnotationEvent request (ann_id ann) "create"])
                 (set_db d w))
          end
      end
  end.
Proof.
  unfold create, bind, _json_payload, lift, with_db.
  destruct (json_body request) as [payload|]; [|reflexivity]. cbn.
  destruct (Schema_validate _ payload) as [e|appstruct]; [reflexivity|].
  destruct (storage_create_annotation _ _ _ _) as [e|[ann d]]; reflexivity.
Qed.

(** What [update] does, step by step. *)
Lemma update_run (context : AnnotationResource) (request : Request) (w : World) :
  update context request w =
  match json_body request with
  | None => (inl (ExcAPIError PayloadError), w)
  | Some payload =>
      match Schema_validate
              (UpdateAnnotationSchema request
                 (target_uri (annotation context))
                 (groupid (annotation context))) payload with
      | inl e => (inl e, w)
      | inr appstruct =>
          match storage_update_annotation (db w)
                  (ann_id (annotation context)) appstruct with
          | inl e => (inl e, w)
          | inr (ann, d) =>
              (inr (AnnotationJSONPresenter_asdict
                      (mkAnnotationResource ann
                         (find_service_IGroupService request)
                         (find_service_links request))),
               set_after_commit
                 (after_commit w ++ [mkAnnotationEvent request (ann_id ann) "update"])
                 (set_db d w))
          end
      end
  end.
Proof.
  unfold update, bind, _json_payload, lift, with_db.
  destruct (json_body request) as [payload|]; [|reflexivity]. cbn.
  destruct (Schema_validate _ payload) as [e|appstruct]; [reflexivity|].
  destruct (storage_update_annotation _ _ _) as [e|[ann d]]; reflexivity.
Qed.

(** What [delete] does, step by step. *)
Lemma delete_run (context : AnnotationResource) (request : Request) (w : World) :
  delete context request w =
  match storage_delete_annotation (db w) (ann_id (annotation context)) with
  | inl e => (inl e, w)
  | inr d =>
      (inr (JDict {[ "id" := JStr (ann_id (annotation context));
                     "deleted" := JBool true ]}),
       set_after_commit
         (after_commit w
            ++ [mkAnnotationEvent request (ann_id (annotation context)) "delete"])
         (set_db d w))
  end.
Proof.
  unfold delete, bind, with_db.
  destruct (storage_delete_annotation _ _) as [e|d]; reflexivity.
Qed.

(** The event [delete] publishes is built from the request, the id of the
    annotation and the action, and from nothing else of the annotation:
    when the storage deletes the record the queue gains exactly
    [AnnotationEvent(request, id, 'delete')], and two annotations with the
    same id but different target URI, group and fields leave the same
    queue behind. *)
Lemma delete_event_ignores_annotation_fields
    (request : Request) (w : World) (gs : GroupService) (ls : LinksService)
    (i uri1 uri2 g1 g2 : string) (doc1 doc2 : json) :
  let context1 := mkAnnotationResource (mkAnnotation i uri1 g1 doc1) gs ls in
  let context2 := mkAnnotationResource (mkAnnotation i uri2 g2 doc2) gs ls in
  after_commit (delete context1 request w).2
  = after_commit (delete context2 request w).2
  /\ forall d, storage_delete_annotation (db w) i = inr d ->
       after_commit (delete context1 request w).2
       = (after_commit w ++ [mkAnnotationEvent request i "delete"])%list.
Proof.
  cbn zeta. rewrite !delete_run. cbn [annotation ann_id].
  destruct (storage_delete_annotation (db w) i) as [e|d]; split;
    try reflexivity; intros d' Hd; discriminate || reflexivity.
Qed.

Lemma publishes_once_create (request : Request) (w : World) :
  publishes_once (create request) request "create" w.
Proof.
  unfold publishes_once. rewrite create_run.
  destruct (json_body request) as [payload|]; [|reflexivity].
  destruct (Schema_validate _ payload) as [e|appstruct]; [reflexivity|].
  destruct (storage_create_annotation _ _ _ _) as [e|[ann d]]; [reflexivity|].
  exists (ann_id ann). reflexivity.
Qed.

Lemma publishes_once_update (context : AnnotationResource) (request : Request)
    (w : World) :
  publishes_once (update context request) request "update" w.
Proof.
  unfold publishes_once. rewrite update_run.
  destruct (json_body request) as [payload|]; [|reflexivity].
  destruct (Schema_validate _ payload) as [e|appstruct]; [reflexivity|].
  destruct (storage_update_annotation _ _ _) as [e|[ann d]]; [reflexivity|].
  exists (ann_id ann). reflexivity.
Qed.

Lemma publishes_once_delete (context : AnnotationResource) (request : Request)
    (w : World) :
  publishes_once (delete context request) request "delete" w.
Proof.
  unfold publishes_once. rewrite delete_run.
  destruct (storage_delete_annotation _ _) as [e|d]; [reflexivity|].
  exists (ann_id (annotation context)). reflexivity.
Qed.

(** A view that publishes once delivers once under the transaction. *)
Lemma publishes_once_delivers_once (view : M json) (request : Request)
    (action : string) (w : World) :
  publishes_once view request action w -> delivers_once view request action w.
Proof.
  unfold publishes_once, delivers_once, run_in_transaction.
  destruct (view w) as [[e|body] w']; [|exact (fun Hp => Hp)].
  intros ->. split; reflexivity.
Qed.

(** C2: each of [create], [update] and [delete] hands exactly one event,
    with its own action, to the post-commit queue when it returns, so that
    under the transaction exactly that event is delivered once the session
    is committed; when the view raises (at payload parsing, at schema
    validation or in the storage call, all of which come before the
    publication) the state is left as it was: no event is registered or
    delivered and the session holds no new or changed record. *)
Theorem one_event_per_successful_mutation
    (context : AnnotationResource) (request : Request) (w : World) :
  (publishes_once (create request) request "create" w
   /\ publishes_once (update context request) request "update" w
   /\ publishes_once (delete context request) request "delete" w)
  /\ (delivers_once (create request) request "create" w
      /\ delivers_once (update context request) request "update" w
      /\ delivers_once (delete context request) request "delete" w).
Proof.
  pose proof (publishes_once_create request w).
  pose proof (publishes_once_update context request w).
  pose proof (publishes_once_delete context request w).
  repeat split; auto using publishes_once_delivers_once.
Qed.

(** C6: [update] validates the payload with the update schema built from
    the request and the target URI and group the annotation had when the
    view was entered.  When validation fails the view raises and the state
    is untouched (the storage is not called, no event is registered).  When
    it succeeds and the storage returns the updated annotation, the view
    registers one [update] event with the id of that returned annotation
    and returns its presentation. *)
Theorem update_validates_against_prior_state
    (context : AnnotationResource) (request : Request) (w : World)
    (payload : json) :
  json_body request = Some payload ->
  match Schema_validate
          (UpdateAnnotationSchema request
             (target_uri (annotation context))
             (groupid (annotation context))) payload with
  | inl e => update context request w = (inl e, w)
  | inr appstruct =>
      match storage_update_annotation (db w)
              (ann_id (annotation context)) appstruct with
      | inl e => update context request w = (inl e, w)
      | inr (ann, d) =>
          update context request w
          = (inr (AnnotationJSONPresenter_asdict
                    (mkAnnotationResource ann
                       (find_service_IGroupService request)
                       (find_service_links request))),
             mkWorld d (params w) (response w)
               (after_commit w
                  ++ [mkAnnotationEvent request (ann_id ann) "update"]))
      end
  end.
Proof.
  intros Hbody. rewrite update_run, Hbody.
  destruct (Schema_validate _ payload) as [e|appstruct]; [reflexivity|].
  destruct (storage_update_annotation _ _ _) as [e|[ann d]]; reflexivity.
Qed.

(** ** Reading *)

(** C7: [read_jsonld] sets the content type of the response to
    [application/ld+json] and its parameters to the single entry
    [profile], equal to the presenter's [CONTEXT_URL]; the body is the
    JSON-LD presenter's rendering of the context; the session, the request
    parameters, the post-commit queue and the status code are unchanged. *)
Theorem read_jsonld_sets_profile
    (context : AnnotationResource) (request : Request) (w : World) :
  let r := read_jsonld context request w in
  r.1 = inr (AnnotationJSONLDPresenter_asdict context)
  /\ content_type (response r.2) = "application/ld+json"
  /\ content_type_params (response r.2) = {[ "profile" := CONTEXT_URL ]}
  /\ response_status_code (response r.2) = response_status_code (response w)
  /\ db r.2 = db w
  /\ params r.2 = params w
  /\ after_commit r.2 = after_commit w.
Proof. repeat split. Qed.

(** ** Search *)

Lemma present_annotations_run (request : Request) (ids : list string)
    (w : World) :
  _present_annotations request ids w
  = (inr (map (presented request)
            (storage_fetch_ordered_annotations (db w) ids)), w).
Proof. reflexivity. Qed.

(** What [search] does, step by step. *)
Lemma search_run (request : Request) (w : World) :
  search request w =
  let popped := MultiDict_pop "_separate_replies" (PyBool false) (params w) in
  let result := Search_run request popped.1 (stats request) popped.2 in
  let out : gmap string json :=
    {[ "total" := JNum (total result);
       "rows" := JList (map (presented request)
                          (storage_fetch_ordered_annotations (db w)
                             (annotation_ids result))) ]} in
  (inr (JDict (if truthy popped.1
               then <["replies" :=
                        JList (map (presented request)
                                 (storage_fetch_ordered_annotations (db w)
                                    (reply_ids result)))]> out
               else out)), w).
Proof.
  unfold search, bind, get. cbn zeta.
  destruct (MultiDict_pop _ _ (params w)) as [separate_replies q].
  cbn [fst snd]. rewrite present_annotations_run.
  destruct (truthy separate_replies); reflexivity.
Qed.

(** Popping a key that is not given returns the default and everything. *)
Lemma MultiDict_pop_absent (key : string) (dflt : pyval)
    (items : list (string * string)) :
  key ∉ items.*1 -> MultiDict_pop key dflt items = (dflt, items).
Proof.
  induction items as [|[k v] items IH]; intros Hno; [reflexivity|].
  cbn [MultiDict_pop]. rewrite fmap_cons in Hno. cbn [fst] in Hno.
  apply not_elem_of_cons in Hno as [Hne Hno].
  destruct (String.eqb_spec k key) as [->|_]; [congruence|].
  rewrite (IH Hno). reflexivity.
Qed.

(** Popping a key returns the value of the first item with the key and
    everything but that item. *)
Lemma MultiDict_pop_first (key : string) (dflt : pyval) (v : string)
    (before after : list (string * string)) :
  key ∉ before.*1 ->
  MultiDict_pop key dflt (before ++ (key, v) :: after)
  = (PyStr v, (before ++ after)%list).
Proof.
  induction before as [|[k u] before IH]; intros Hno.
  - cbn [app MultiDict_pop]. rewrite String.eqb_refl. reflexivity.
  - rewrite fmap_cons in Hno. cbn [fst] in Hno.
    apply not_elem_of_cons in Hno as [Hne Hno].
    cbn [app MultiDict_pop].
    destruct (String.eqb_spec k key) as [->|_]; [congruence|].
    rewrite (IH Hno). reflexivity.
Qed.

(** A key that is given has a first item. *)
Lemma first_occurrence (key : string) (items : list (string * string)) :
  key ∈ items.*1 ->
  exists before v after,
    items = (before ++ (key, v) :: after)%list /\ key ∉ before.*1.
Proof.
  induction items as [|[k u] items IH]; intros Hin.
  - rewrite fmap_nil in Hin. destruct (not_elem_of_nil _ Hin).
  - destruct (decide (k = key)) as [->|Hne].
    + exists [], u, items. split; [reflexivity|]. apply not_elem_of_nil.
    + rewrite fmap_cons in Hin. cbn [fst] in Hin.
      apply elem_of_cons in Hin as [Heq|Hin]; [congruence|].
      destruct (IH Hin) as (before & v & after & -> & Hno).
      exists ((k, u) :: before), v, after. split; [reflexivity|].
      rewrite fmap_cons. cbn [fst]. apply not_elem_of_cons. split; congruence.
Qed.

Lemma occurrences_app (key : string) (l1 l2 : list (string * string)) :
  occurrences key (l1 ++ l2) = (occurrences key l1 + occurrences key l2)%nat.
Proof. unfold occurrences. rewrite List.filter_app. apply length_app. Qed.

Lemma occurrences_zero (key : string) (items : list (string * string)) :
  occurrences key items = 0%nat -> key ∉ items.*1.
Proof.
  induction items as [|[k u] items IH]; intros Hocc.
  - rewrite fmap_nil. apply not_elem_of_nil.
  - unfold occurrences in Hocc. cbn [List.filter fst] in Hocc.
    rewrite fmap_cons. cbn [fst]. apply not_elem_of_cons.
    destruct (String.eqb_spec k key) as [->|Hne]; [discriminate|].
    split; [congruence|]. apply IH, Hocc.
Qed.

Lemma truthy_PyStr (v : string) : truthy (PyStr v) = true <-> v <> EmptyString.
Proof.
  cbn. destruct (String.eqb_spec v EmptyString); cbn; split; intros; congruence.
Qed.

(** The keys of the response of [search] and what stands under each, for
    the flag and the query popping gives. *)
Lemma search_response (request : Request) (w : World)
    (flag : pyval) (query : list (string * string)) :
  MultiDict_pop "_separate_replies" (PyBool false) (params w) = (flag, query) ->
  let result := Search_run request flag (stats request) query in
  let fetched ids := storage_fetch_ordered_annotations (db w) ids in
  exists out : gmap string json,
    search request w = (inr (JDict out), w)
    /\ out !! "total" = Some (JNum (total result))
    /\ out !! "rows"
       = Some (JList (map (presented request)
                        (fetched (annotation_ids result))))
    /\ out !! "replies"
       = (if truthy flag
          then Some (JList (map (presented request)
                              (fetched (reply_ids result))))
          else None)
    /\ (forall k, is_Some (out !! k) ->
                  k = "total" \/ k = "rows" \/ k = "replies").
Proof.
  intros Hpop. cbn zeta. rewrite search_run, Hpop. cbn zeta. cbn [fst snd].
  set (result := Search_run _ _ _ _).
  eexists. split; [reflexivity|].
  destruct (truthy flag) eqn:Htruthy.
  - repeat split.
    intros k [x Hk].
    destruct (decide (k = "replies")) as [->|]; [auto|].
    destruct (decide (k = "total")) as [->|]; [auto|].
    destruct (decide (k = "rows")) as [->|]; [auto|].
    exfalso. simplify_map_eq.
  - repeat split.
    intros k [x Hk].
    destruct (decide (k = "total")) as [->|]; [auto|].
    destruct (decide (k = "rows")) as [->|]; [auto|].
    exfalso. simplify_map_eq.
Qed.

(** The flag and the query of a request, read off its parameters. *)
Lemma popped_cases (w : World) :
  (("_separate_replies" ∉ (params w).*1)
   /\ MultiDict_pop "_separate_replies" (PyBool false) (params w)
      = (PyBool false, params w))
  \/ (exists before v after,
        params w = (before ++ ("_separate_replies", v) :: after)%list
        /\ ("_separate_replies" ∉ before.*1)
        /\ MultiDict_pop "_separate_replies" (PyBool false) (params w)
           = (PyStr v, (before ++ after)%list)).
Proof.
  destruct (decide ("_separate_replies" ∈ (params w).*1)) as [Hin|Hno].
  - right. destruct (first_occurrence _ _ Hin) as (before & v & after & Hw & Hno).
    exists before, v, after. split; [exact Hw|]. split; [exact Hno|].
    rewrite Hw. apply MultiDict_pop_first, Hno.
  - left. split; [exact Hno|]. apply MultiDict_pop_absent, Hno.
Qed.

(** C5: [search] returns a dictionary with [total] and [rows], where
    [rows] lists the presentations of the records the storage fetched for
    the search gateway's annotation ids, position by position (the view
    neither sorts nor filters them).  The gateway is asked with the flag
    and the query read off the parameters of the request: [False] and all
    parameters when [_separate_replies] is not given, else the raw value
    of its first occurrence and the parameters without that occurrence.
    The response has no other key except [replies], which is there exactly
    when that value is a non-empty string and then lists, in the same way,
    the records fetched for the gateway's reply ids.  When the storage
    hands back one record per id in the order asked for, the ids of the
    presented rows and replies are the gateway's ids in the gateway's
    order. *)
Theorem search_rows_in_gateway_order (request : Request) (w : World) :
  exists (out : gmap string json) (flag : pyval)
         (query : list (string * string)),
    let result := Search_run request flag (stats request) query in
    let fetched ids := storage_fetch_ordered_annotations (db w) ids in
    let requested := exists v, flag = PyStr v /\ v <> EmptyString in
    search request w = (inr (JDict out), w)
    /\ ((("_separate_replies" ∉ (params w).*1)
         /\ flag = PyBool false /\ query = params w)
        \/ (exists before v after,
              params w = (before ++ ("_separate_replies", v) :: after)%list
              /\ ("_separate_replies" ∉ before.*1)
              /\ flag = PyStr v /\ query = (before ++ after)%list))
    /\ out !! "total" = Some (JNum (total result))
    /\ out !! "rows"
       = Some (JList (map (presented request)
                        (fetched (annotation_ids result))))
    /\ (is_Some (out !! "replies") <-> requested)
    /\ (requested ->
        out !! "replies"
        = Some (JList (map (presented request)
                         (fetched (reply_ids result)))))
    /\ (forall k, is_Some (out !! k) ->
                  k = "total" \/ k = "rows" \/ k = "replies")
    /\ ((forall ids, ids = annotation_ids result \/ ids = reply_ids result ->
                     map ann_id (fetched ids) = ids) ->
        exists anns,
          out !! "rows" = Some (JList (map (presented request) anns))
          /\ map ann_id anns = annotation_ids result
          /\ (requested ->
              exists replies,
                out !! "replies"
                = Some (JList (map (presented request) replies))
                /\ map ann_id replies = reply_ids result)).
Proof.
  assert (exists flag query,
            MultiDict_pop "_separate_replies" (PyBool false) (params w)
            = (flag, query)
            /\ ((("_separate_replies" ∉ (params w).*1)
                 /\ flag = PyBool false /\ query = params w)
                \/ (exists before v after,
                      params w
                      = (before ++ ("_separate_replies", v) :: after)%list
                      /\ ("_separate_replies" ∉ before.*1)
                      /\ flag = PyStr v /\ query = (before ++ after)%list)))
    as (flag & query & Hpop & Hcase).
  { destruct (popped_cases w) as [[Hno Hpop]|(before & v & after & Hw & Hno & Hpop)].
    - exists (PyBool false), (params w). split; [exact Hpop|]. left. auto.
    - exists (PyStr v), (before ++ after)%list. split; [exact Hpop|].
      right. exists before, v, after. auto. }
  destruct (search_response request w flag query Hpop)
    as (out & Hrun & Htotal & Hrows & Hreplies & Hkeys).
  cbn zeta in *.
  assert (truthy flag = true <-> exists v, flag = PyStr v /\ v <> EmptyString)
    as Hrequested.
  { destruct Hcase as [(_ & -> & _)|(before & v & after & _ & _ & -> & _)].
    - split; [discriminate|]. intros (v & [=] & _).
    - rewrite truthy_PyStr. split.
      + intros Hne. exists v. auto.
      + intros (v' & [= <-] & Hne). exact Hne. }
  exists out, flag, query.
  split; [exact Hrun|]. split; [exact Hcase|].
  split; [exact Htotal|]. split; [exact Hrows|].
  split.
  { rewrite <- Hrequested, Hreplies.
    destruct (truthy flag); split; intros Hx;
      try reflexivity; try discriminate; try (eexists; reflexivity).
    destruct Hx as [x Hx]. discriminate. }
  split.
  { intros Hreq%Hrequested. rewrite Hreq in Hreplies. exact Hreplies. }
  split; [exact Hkeys|].
  intros Hfetch. eexists. split; [exact Hrows|].
  split; [apply Hfetch; left; reflexivity|].
  intros Hreq%Hrequested. rewrite Hreq in Hreplies.
  eexists. split; [exact Hreplies|]. apply Hfetch. right. reflexivity.
Qed.

(** C8: [replies] is in the response exactly when the request gives a
    parameter [_separate_replies] and the raw string of its first
    occurrence is not empty.  Any such string, [false] and [0] included,
    is handed to the search gateway as the [separate_replies] argument,
    with the parameters without that occurrence, and makes the view add
    [replies]; without the parameter, or with the empty string, [replies]
    is absent. *)
Theorem separate_replies_is_truthiness (request : Request) (w : World) :
  exists out : gmap string json,
    search request w = (inr (JDict out), w)
    /\ (is_Some (out !! "replies") <->
        exists before v after,
          params w = (before ++ ("_separate_replies", v) :: after)%list
          /\ ("_separate_replies" ∉ before.*1)
          /\ v <> EmptyString)
    /\ (forall before v after,
          params w = (before ++ ("_separate_replies", v) :: after)%list ->
          ("_separate_replies" ∉ before.*1) ->
          v <> EmptyString ->
          out !! "replies"
          = Some (JList (map (presented request)
                           (storage_fetch_ordered_annotations (db w)
                              (reply_ids
                                 (Search_run request (PyStr v) (stats request)
                                    (before ++ after)%list))))))
    /\ (("_separate_replies" ∉ (params w).*1)
        \/ (exists before after,
              params w
              = (before ++ ("_separate_replies", EmptyString) :: after)%list
              /\ ("_separate_replies" ∉ before.*1)) ->
        out !! "replies" = None)
    /\ truthy (PyStr "false") = true
    /\ truthy (PyStr "0") = true.
Proof.
  destruct (MultiDict_pop "_separate_replies" (PyBool false) (params w))
    as [flag query] eqn:Hpop.
  destruct (search_response request w flag query Hpop)
    as (out & Hrun & _ & _ & Hreplies & _).
  cbn zeta in Hreplies.
  exists out. split; [exact Hrun|].
  split; [|split; [|split; [|split; reflexivity]]].
  - split.
    + intros Hsome.
      destruct (popped_cases w)
        as [[_ Hpop']|(before & v & after & Hw & Hno & Hpop')];
        rewrite Hpop' in Hpop; injection Hpop as <- <-.
      * cbn in Hreplies. rewrite Hreplies in Hsome.
        destruct Hsome as [x Hx]. discriminate.
      * exists before, v, after. split; [exact Hw|]. split; [exact Hno|].
        apply truthy_PyStr. destruct (truthy (PyStr v)); [reflexivity|].
        rewrite Hreplies in Hsome. destruct Hsome as [x Hx]. discriminate.
    + intros (before & v & after & Hw & Hno & Hne).
      rewrite Hw, (MultiDict_pop_first _ _ _ _ _ Hno) in Hpop.
      injection Hpop as <- <-.
      apply truthy_PyStr in Hne. rewrite Hne in Hreplies.
      rewrite Hreplies. eexists. reflexivity.
  - intros before v after Hw Hno Hne.
    rewrite Hw, (MultiDict_pop_first _ _ _ _ _ Hno) in Hpop.
    injection Hpop as <- <-.
    apply truthy_PyStr in Hne. rewrite Hne in Hreplies. exact Hreplies.
  - intros [Hno|(before & after & Hw & Hno)].
    + rewrite (MultiDict_pop_absent _ _ _ Hno) in Hpop.
      injection Hpop as <- <-. exact Hreplies.
    + rewrite Hw, (MultiDict_pop_first _ _ _ _ _ Hno) in Hpop.
      injection Hpop as <- <-. exact Hreplies.
Qed.

(** ** The API descriptor *)

(** C9: the [read], [update] and [delete] entries of the descriptor all
    carry the same URL, the route URL generated for the id [123] with
    [123] replaced by [:id].  The replacement is not confined to the id:
    wherever [123] occurs in the generated URL (say in the host name) it
    is replaced, what stands before and after it being rewritten in the
    same way, and no [123] is left in the template. *)
Theorem index_url_template (request : Request) (w : World) :
  let generated := route_url request "api.annotation" [("id", "123")] in
  let annotation_url := str_replace generated "123" ":id" in
  exists doc,
    index tt request w = (inr doc, w)
    /\ json_get ["links"; "annotation"; "read"; "url"] doc
       = Some (JStr annotation_url)
    /\ json_get ["links"; "annotation"; "update"; "url"] doc
       = Some (JStr annotation_url)
    /\ json_get ["links"; "annotation"; "delete"; "url"] doc
       = Some (JStr annotation_url)
    /\ (forall p r, generated = p ++ "123" ++ r ->
        annotation_url
        = str_replace p "123" ":id" ++ ":id" ++ str_replace r "123" ":id")
    /\ ~ occurs "123" annotation_url.
Proof.
  cbn zeta. eexists. split; [reflexivity|].
  split; [reflexivity|]. split; [reflexivity|]. split; [reflexivity|].
  split.
  - intros p r ->. apply replace_scan_app. lia.
  - intros Hocc%occurs_contains.
    unfold str_replace in Hocc. rewrite replace_scan_clean in Hocc.
    discriminate.
Qed.

End Properties.

Section GatewayInput.
Context `{C : Collaborators}.

(** C10: [search] leaves [request.params] as it found it, and consults the
    search gateway only on the copy from which the first occurrence of
    [_separate_replies] has been removed: a gateway that agrees with the
    configured one on that collection gives the same response.  So when
    the request gives the key at most once, the gateway does not receive
    it: a gateway that agrees with the configured one on every collection
    without the key gives the same response. *)
Theorem search_strips_separate_replies (request : Request) (w : World) :
  params (search request w).2 = params w
  /\ (("_separate_replies" ∉ (params w).*1) ->
      forall run',
        (forall separate_replies,
            run' request separate_replies (stats request) (params w)
            = Search_run request separate_replies (stats request) (params w)) ->
        @search _ (with_Search_run C run') request w = search request w)
  /\ (forall before v after,
        params w = (before ++ ("_separate_replies", v) :: after)%list ->
        ("_separate_replies" ∉ before.*1) ->
        forall run',
          (forall separate_replies,
              run' request separate_replies (stats request)
                (before ++ after)%list
              = Search_run request separate_replies (stats request)
                  (before ++ after)%list) ->
          @search _ (with_Search_run C run') request w = search request w)
  /\ ((occurrences "_separate_replies" (params w) <= 1)%nat ->
      forall run',
        (forall separate_replies q,
            ("_separate_replies" ∉ q.*1) ->
            run' request separate_replies (stats request) q
            = Search_run request separate_replies (stats request) q) ->
        @search _ (with_Search_run C run') request w = search request w).
Proof.
  assert (forall run' flag query,
            MultiDict_pop "_separate_replies" (PyBool false) (params w)
            = (flag, query) ->
            run' request flag (stats request) query
            = Search_run request flag (stats request) query ->
            @search _ (with_Search_run C run') request w = search request w)
    as Hsame.
  { intros run' flag query Hpop Hrun.
    rewrite (search_run (C := with_Search_run C run')), (search_run (C := C)).
    cbn zeta. rewrite Hpop. cbn [fst snd].
    unfold with_Search_run; cbn [Search_run find_service_IGroupService
      find_service_links storage_fetch_ordered_annotations
      AnnotationJSONPresenter_asdict].
    unfold presented; cbn [find_service_IGroupService find_service_links
      AnnotationJSONPresenter_asdict].
    rewrite Hrun. reflexivity. }
  split; [rewrite search_run; reflexivity|].
  split; [|split].
  - intros Hno run' Hrun.
    apply (Hsame run' _ _ (MultiDict_pop_absent _ _ _ Hno)), Hrun.
  - intros before v after Hw Hno run' Hrun.
    apply (Hsame run' (PyStr v) (before ++ after)%list); [|apply Hrun].
    rewrite Hw. apply MultiDict_pop_first, Hno.
  - intros Honce run' Hrun.
    destruct (popped_cases w)
      as [[Hno Hpop]|(before & v & after & Hw & Hno & Hpop)].
    + apply (Hsame run' _ _ Hpop), Hrun, Hno.
    + apply (Hsame run' _ _ Hpop), Hrun.
      rewrite Hw, occurrences_app in Honce.
      change (("_separate_replies", v) :: after)
        with ([("_separate_replies", v)] ++ after)%list in Honce.
      rewrite occurrences_app in Honce.
      assert (occurrences "_separate_replies" [("_separate_replies", v)]
              = 1%nat) as Hone by reflexivity.
      rewrite Hone in Honce.
      rewrite fmap_app. apply not_elem_of_app. split; [exact Hno|].
      apply occurrences_zero. lia.
Qed.

End GatewayInput.

(** * Further properties *)

(** ** View configuration *)

Lemma setdefault_lookup_ne (key k : string) (value : pyobj)
    (settings : gmap string pyobj) :
  key <> k -> setdefault k value settings !! key = settings !! key.
Proof.
  intros Hne. unfold setdefault.
  destruct (settings !! k); [reflexivity|].
  apply lookup_insert_ne. congruence.
Qed.

Lemma setdefault_lookup_eq (k : string) (value : pyobj)
    (settings : gmap string pyobj) :
  setdefault k value settings !! k = Some (default value (settings !! k)).
Proof.
  unfold setdefault. destruct (settings !! k) eqn:Hk; cbn.
  - exact Hk.
  - apply lookup_insert_eq.
Qed.

(** X1: whatever the caller passes, [api_config] configures a tuple of
    request methods that ends in [OPTIONS] and has at least one method
    before it: the caller's tuple when it is not empty, the single value
    when the caller passed something that is not a tuple, and DELETE, GET,
    HEAD, POST, PUT when the caller passed nothing or the empty tuple. *)
Theorem api_config_request_method (settings : gmap string pyobj) :
  exists methods,
    api_config settings !! "request_method"
    = Some (OTuple (methods ++ [OStr "OPTIONS"]))
    /\ methods <> []
    /\ (settings !! "request_method" = None
        \/ settings !! "request_method" = Some (OTuple []) ->
        methods = default_methods)
    /\ (forall items,
          settings !! "request_method" = Some (OTuple items) ->
          items <> [] -> methods = items)
    /\ (forall other,
          settings !! "request_method" = Some other ->
          (forall items, other <> OTuple items) -> methods = [other]).
Proof.
  unfold api_config. rewrite lookup_insert_eq.
  rewrite !setdefault_lookup_ne by discriminate.
  eexists. split; [reflexivity|].
  destruct (settings !! "request_method") as [[|b|m|items|n|hs ms pf]|] eqn:Hrm;
    cbn;
    try (repeat split;
         [discriminate
         |intros [[=]|[=]]
         |intros items [=]
         |intros other [= <-] _; reflexivity]).
  - destruct items as [|item items]; cbn; repeat split.
    + discriminate.
    + intros items [= <-] Hne. congruence.
    + intros other [= <-] Hother. destruct (Hother [] eq_refl).
    + discriminate.
    + intros [[=]|[=]].
    + intros items' [= <-] _. reflexivity.
    + intros other [= <-] Hother. destruct (Hother _ eq_refl).
  - repeat split.
    + discriminate.
    + intros items [=].
    + intros other [=].
Qed.

(** X2: [api_config] never overrides a setting of the caller: every key
    but [request_method] keeps the caller's value, and only [accept],
    [renderer] and [decorator] are filled in when the caller left them
    out. *)
Theorem api_config_keeps_caller_settings
    (settings : gmap string pyobj) (key : string) :
  key <> "request_method" ->
  api_config settings !! key
  = match settings !! key with
    | Some value => Some value
    | None => default_settings !! key
    end.
Proof.
  intros Hkey. unfold api_config. rewrite lookup_insert_ne by congruence.
  unfold default_settings.
  destruct (decide (key = "decorator")) as [->|Hd].
  { rewrite setdefault_lookup_eq, !setdefault_lookup_ne by discriminate.
    destruct (settings !! "decorator"); reflexivity. }
  rewrite setdefault_lookup_ne by exact Hd.
  destruct (decide (key = "renderer")) as [->|Hr].
  { rewrite setdefault_lookup_eq, !setdefault_lookup_ne by discriminate.
    destruct (settings !! "renderer"); reflexivity. }
  rewrite setdefault_lookup_ne by exact Hr.
  destruct (decide (key = "accept")) as [->|Ha].
  { rewrite setdefault_lookup_eq.
    destruct (settings !! "accept"); reflexivity. }
  rewrite setdefault_lookup_ne by exact Ha.
  destruct (settings !! key); [reflexivity|].
  symmetry. rewrite !lookup_insert_ne by congruence.
  apply lookup_singleton_ne. congruence.
Qed.

(** X3: every view the module registers is configured for JSON in and
    out behind the CORS policy, answers [OPTIONS], and accepts besides
    [OPTIONS] only methods that the CORS policy allows. *)
Theorem registered_views_behind_cors :
  forall name config, (name, config) ∈ registered_views ->
    config !! "accept" = Some (OStr "application/json")
    /\ config !! "renderer" = Some (OStr "json")
    /\ config !! "decorator" = Some cors_policy
    /\ last (methods_of config) = Some "OPTIONS"
    /\ forall m, m ∈ methods_of config ->
         m = "OPTIONS" \/ m ∈ cors_allow_methods cors_policy.
Proof.
  assert (Forall (fun entry : string * gmap string pyobj =>
            entry.2 !! "accept" = Some (OStr "application/json")
            /\ entry.2 !! "renderer" = Some (OStr "json")
            /\ entry.2 !! "decorator" = Some cors_policy
            /\ last (methods_of entry.2) = Some "OPTIONS"
            /\ Forall (fun m => m = "OPTIONS"
                               \/ m ∈ cors_allow_methods cors_policy)
                 (methods_of entry.2))
            registered_views) as Hall.
  { unfold registered_views, view_settings. cbn [map fst snd].
    repeat apply List.Forall_cons; try apply List.Forall_nil;
      (split; [reflexivity|]; split; [reflexivity|]; split; [reflexivity|];
       split; [reflexivity|]);
      vm_compute methods_of;
      repeat apply List.Forall_cons; try apply List.Forall_nil;
      first [left; reflexivity | right; cbn; set_solver]. }
  intros name config Hin.
  rewrite Forall_forall in Hall.
  destruct (Hall _ Hin) as (Ha & Hr & Hd & Hl & Hm).
  repeat split; try assumption.
  rewrite Forall_forall in Hm. exact Hm.
Qed.

(** X4: two different views registered on the same route have no request
    method in common except [OPTIONS], so that a route and a method other
    than [OPTIONS] select at most one view. *)
Theorem views_share_only_options :
  forall name1 config1 name2 config2,
    (name1, config1) ∈ registered_views ->
    (name2, config2) ∈ registered_views ->
    name1 <> name2 ->
    shared_methods config1 config2 = []
    \/ shared_methods config1 config2 = ["OPTIONS"].
Proof.
  assert (Forall (fun entry1 : string * gmap string pyobj =>
            Forall (fun entry2 : string * gmap string pyobj =>
              entry1.1 = entry2.1
              \/ shared_methods entry1.2 entry2.2 = []
              \/ shared_methods entry1.2 entry2.2 = ["OPTIONS"])
              registered_views) registered_views) as Hall.
  { unfold registered_views, view_settings. cbn [map fst snd].
    repeat apply List.Forall_cons; try apply List.Forall_nil;
      first [ left; reflexivity
            | right; left; vm_compute; reflexivity
            | right; right; vm_compute; reflexivity ]. }
  intros name1 config1 name2 config2 Hin1 Hin2 Hne.
  rewrite Forall_forall in Hall. specialize (Hall _ Hin1).
  rewrite Forall_forall in Hall.
  destruct (Hall _ Hin2) as [Heq|Hshared]; [destruct (Hne Heq)|exact Hshared].
Qed.

(** ** Strings without an occurrence *)

Lemma str_prefix_occurs (old s : string) :
  str_prefix old s = true -> exists r, s = old ++ r.
Proof.
  revert s. induction old as [|a old IH]; intros s Hp.
  - exists s. reflexivity.
  - destruct s as [|b s]; [discriminate|].
    rewrite str_prefix_cons in Hp. apply andb_prop in Hp as [Hab Hp].
    apply Ascii.eqb_eq in Hab as ->.
    destruct (IH s Hp) as [r ->]. exists r. reflexivity.
Qed.

Lemma contains_occurs (old s : string) : contains old s = true -> occurs old s.
Proof.
  induction s as [|c s IH]; cbn [contains]; intros Hc.
  - rewrite orb_false_r in Hc. apply str_prefix_occurs in Hc as [r ->].
    exists EmptyString, r. reflexivity.
  - apply orb_prop in Hc as [Hp|Hc].
    + apply str_prefix_occurs in Hp as [r ->].
      exists EmptyString, r. reflexivity.
    + destruct (IH Hc) as (p & r & ->). exists (String c p), r. reflexivity.
Qed.

(** A string without [123] is left as it is. *)
Lemma replace_scan_absent (s : string) :
  ~ occurs "123" s -> replace_scan "123" ":id" 0 s = s.
Proof.
  induction s as [|c s IH]; intros Hno; [reflexivity|].
  cbn [replace_scan].
  destruct (str_prefix "123" (String c s)) eqn:Hp.
  - destruct Hno. apply contains_occurs. cbn [contains]. rewrite Hp. reflexivity.
  - rewrite IH; [reflexivity|].
    intros (p & r & ->). apply Hno. exists (String c p), r. reflexivity.
Qed.

Section FurtherProperties.
Context `{C : Collaborators}.

(** ** The mutating views, end to end *)

(** X5: [create] validates the payload with the create schema before it
    touches the storage.  When the schema or the storage raises, the view
    raises the same exception and the state is as it was; otherwise the
    session is the one the storage returned, one [create] event carries the
    id of the annotation the storage created, and the body is that
    annotation presented with the services of the request. *)
Theorem create_validates_then_stores
    (request : Request) (w : World) (payload : json) :
  json_body request = Some payload ->
  match Schema_validate (CreateAnnotationSchema request) payload with
  | inl e => create request w = (inl e, w)
  | inr appstruct =>
      match storage_create_annotation request appstruct
              (find_service_IGroupService request) (db w) with
      | inl e => create request w = (inl e, w)
      | inr (ann, d) =>
          create request w
          = (inr (presented request ann),
             mkWorld d (params w) (response w)
               (after_commit w
                  ++ [mkAnnotationEvent request (ann_id ann) "create"]))
      end
  end.
Proof.
  intros Hbody. rewrite create_run, Hbody.
  destruct (Schema_validate _ payload) as [e|appstruct]; [reflexivity|].
  destruct (storage_create_annotation _ _ _ _) as [e|[ann d]]; reflexivity.
Qed.

(** X6: when the storage call returns, [delete] answers with the
    dictionary of exactly the two keys [id], the id of the annotation of
    the context, and [deleted], true, whatever the storage did to the
    session: the view does not look at whether a record was removed.  The
    response and the request parameters are untouched. *)
Theorem delete_reports_deleted
    (context : AnnotationResource) (request : Request) (w : World) (d : DB) :
  storage_delete_annotation (db w) (ann_id (annotation context)) = inr d ->
  exists body : gmap string json,
    (delete context request w).1 = inr (JDict body)
    /\ body !! "id" = Some (JStr (ann_id (annotation context)))
    /\ body !! "deleted" = Some (JBool true)
    /\ dom body = {[ "id"; "deleted" ]}
    /\ db (delete context request w).2 = d
    /\ response (delete context request w).2 = response w
    /\ params (delete context request w).2 = params w.
Proof.
  intros Hdel. rewrite delete_run, Hdel. cbn [fst snd].
  eexists. split; [reflexivity|].
  split; [reflexivity|]. split; [reflexivity|].
  split; [|repeat split].
  rewrite dom_insert_L, dom_singleton_L. reflexivity.
Qed.

(** X7: a payload the schema rejects with a validation error is answered
    with status 400 and the failure envelope carrying the validator's
    message, by [create] and by [update] alike; the session and the
    post-commit queue are then as they were. *)
Theorem invalid_payload_responds_400
    (context : AnnotationResource) (request : Request) (w : World)
    (payload : json) (failure : ValidationError) :
  json_body request = Some payload ->
  (Schema_validate (CreateAnnotationSchema request) payload
   = inl (ExcValidationError failure) ->
   respond (create request) request w
   = (inr (envelope (validation_message failure)), with_status 400 w)
   /\ db (respond (create request) request w).2 = db w
   /\ after_commit (respond (create request) request w).2 = after_commit w)
  /\ (Schema_validate
        (UpdateAnnotationSchema request
           (target_uri (annotation context))
           (groupid (annotation context))) payload
      = inl (ExcValidationError failure) ->
      respond (update context request) request w
      = (inr (envelope (validation_message failure)), with_status 400 w)
      /\ db (respond (update context request) request w).2 = db w
      /\ after_commit (respond (update context request) request w).2
         = after_commit w).
Proof.
  intros Hbody. split; intros Hinvalid; unfold respond.
  - rewrite create_run, Hbody, Hinvalid. repeat split.
  - rewrite update_run, Hbody, Hinvalid. repeat split.
Qed.

(** X8: an [APIError] the storage raises on deletion reaches the client
    with its own status code and message; no event is published and the
    session is as it was. *)
Theorem delete_storage_error_surfaces
    (context : AnnotationResource) (request : Request) (w : World)
    (failure : APIError) :
  storage_delete_annotation (db w) (ann_id (annotation context))
  = inl (ExcAPIError failure) ->
  delete context request w = (inl (ExcAPIError failure), w)
  /\ respond (delete context request) request w
     = (inr (envelope (message failure)),
        with_status (status_code failure) w)
  /\ run_in_transaction (delete context request) w
     = (inl (ExcAPIError failure), set_after_commit [] w, []).
Proof.
  intros Hdel. unfold respond, run_in_transaction.
  rewrite delete_run, Hdel. repeat split.
Qed.

(** ** The descriptor *)

(** X11: when [123] occurs in the generated URL only as the id, the URL
    template of [read], [update] and [delete] is the generated URL with
    [:id] in the place of the id and nothing else changed. *)
Theorem index_template_replaces_id_only
    (request : Request) (w : World) (before after : string) :
  route_url request "api.annotation" [("id", "123")]
  = before ++ "123" ++ after ->
  ~ occurs "123" before ->
  ~ occurs "123" after ->
  exists doc,
    index tt request w = (inr doc, w)
    /\ json_get ["links"; "annotation"; "read"; "url"] doc
       = Some (JStr (before ++ ":id" ++ after))
    /\ json_get ["links"; "annotation"; "update"; "url"] doc
       = Some (JStr (before ++ ":id" ++ after))
    /\ json_get ["links"; "annotation"; "delete"; "url"] doc
       = Some (JStr (before ++ ":id" ++ after)).
Proof.
  intros Hurl Hbefore Hafter.
  assert (str_replace (route_url request "api.annotation" [("id", "123")])
            "123" ":id" = before ++ ":id" ++ after) as Htemplate.
  { rewrite Hurl. unfold str_replace.
    rewrite replace_scan_app by lia.
    rewrite !replace_scan_absent by assumption. reflexivity. }
  unfold index. rewrite Htemplate.
  eexists. repeat split.
Qed.

End FurtherProperties.

(** * The views at work

    Runs of the views on the in-memory instance. *)

Import Demo.

Example replace_host :
  str_replace "http://h123/a/123" "123" ":id" = "http://h:id/a/:id".
Proof. reflexivity. Qed.

Example replace_overlap : str_replace "12123x1123" "123" ":id" = "12:idx1:id".
Proof. reflexivity. Qed.

(** C1, at a DELETE of the annotation [a] whose target URI is
    [http://example.com/a]: the record is removed, and the one event left
    on the queue is [AnnotationEvent(request, 'a', 'delete')]; it is the
    same event whatever the target URI of the deleted annotation was. *)
Theorem delete_publishes_id_only :
  delete context_a request_nobody world0
  = (inr (JDict {[ "id" := JStr "a"; "deleted" := JBool true ]}),
     mkWorld [ann_b; ann_c] [] response0
       [mkAnnotationEvent request_nobody "a" "delete"])
  /\ forall uri,
      after_commit
        (delete (mkAnnotationResource (mkAnnotation "a" uri "__world__" JNull) tt tt)
           request_nobody world0).2
      = [mkAnnotationEvent request_nobody "a" "delete"].
Proof. split; [|intros uri]; reflexivity. Qed.

Example create_hello :
  create request_hello world0
  = (inr (JDict {[ "id" := JStr "new"; "uri" := JStr "http://x" ]}),
     mkWorld
       [ann_a; ann_b; ann_c;
        mkAnnotation "new" "http://x" "__world__"
          (JDict {[ "text" := JStr "hello"; "uri" := JStr "http://x" ]})]
       [] response0
       [mkAnnotationEvent request_hello "new" "create"]).
Proof. vm_compute. reflexivity. Qed.

Example create_invalid :
  create request_notext world0
  = (inl (ExcValidationError (mkValidationError "text: is required")), world0).
Proof. vm_compute. reflexivity. Qed.

Example create_invalid_in_transaction :
  run_in_transaction (create request_notext) world0
  = (inl (ExcValidationError (mkValidationError "text: is required")),
     world0, []).
Proof. vm_compute. reflexivity. Qed.

Example create_hello_in_transaction :
  (run_in_transaction (create request_hello) world0).2
  = [mkAnnotationEvent request_hello "new" "create"].
Proof. vm_compute. reflexivity. Qed.

(** A request body that is not JSON, on [create] and on [update]. *)
Lemma malformed_json_payload_error_witness :
  json_body request_nobody = None
  /\ create request_nobody world0 = (inl (ExcAPIError PayloadError), world0)
  /\ update context_a request_nobody world0
     = (inl (ExcAPIError PayloadError), world0)
  /\ status_code PayloadError = 400
  /\ message PayloadError = "Expected a valid JSON payload, but none was found!"
  /\ exception_view (ExcAPIError PayloadError) request_nobody world0
     = (inr (JDict {[ "status" := JStr "failure";
                      "reason" :=
                        JStr "Expected a valid JSON payload, but none was found!" ]}),
        mkWorld [ann_a; ann_b; ann_c] [] (mkResponse 400 "application/json" ∅) []).
Proof.
  split; [reflexivity|].
  exact (malformed_json_payload_error context_a request_nobody world0 eq_refl).
Defined.

(** An update that keeps the group, and one that tries to change it: the
    schema sees the group the annotation had before. *)
Lemma update_validates_against_prior_state_witness :
  json_body request_hello = Some payload_hello
  /\ update context_a request_hello world0
     = (inr (JDict {[ "id" := JStr "a"; "uri" := JStr "http://x" ]}),
        mkWorld
          [mkAnnotation "a" "http://x" "__world__" payload_hello; ann_b; ann_c]
          [] response0
          [mkAnnotationEvent request_hello "a" "update"]).
Proof.
  split; [reflexivity|].
  exact (update_validates_against_prior_state
           context_a request_hello world0 payload_hello eq_refl).
Defined.

Example update_regroup_refused :
  update context_a request_regroup world0
  = (inl (ExcValidationError (mkValidationError "group: may not be changed")),
     world0).
Proof. vm_compute. reflexivity. Qed.

(** A search without parameters, and searches with [_separate_replies]. *)
Example search_plain :
  search request_nobody world0
  = (inr (JDict {[
       "total" := JNum 3;
       "rows" := JList [
         JDict {[ "id" := JStr "b"; "uri" := JStr "http://example.com/b" ]};
         JDict {[ "id" := JStr "c"; "uri" := JStr "http://example.com/a" ]};
         JDict {[ "id" := JStr "a"; "uri" := JStr "http://example.com/a" ]} ] ]}),
     world0).
Proof. vm_compute. reflexivity. Qed.

Example search_flag_false :
  search request_nobody (world_flag "false")
  = (inr (JDict {[
       "total" := JNum 2;
       "rows" := JList [
         JDict {[ "id" := JStr "b"; "uri" := JStr "http://example.com/b" ]};
         JDict {[ "id" := JStr "a"; "uri" := JStr "http://example.com/a" ]} ];
       "replies" := JList [
         JDict {[ "id" := JStr "c"; "uri" := JStr "http://example.com/a" ]} ] ]}),
     world_flag "false").
Proof. vm_compute. reflexivity. Qed.

Example search_flag_empty :
  search request_nobody (world_flag EmptyString)
  = (inr (JDict {[
       "total" := JNum 3;
       "rows" := JList [
         JDict {[ "id" := JStr "b"; "uri" := JStr "http://example.com/b" ]};
         JDict {[ "id" := JStr "c"; "uri" := JStr "http://example.com/a" ]};
         JDict {[ "id" := JStr "a"; "uri" := JStr "http://example.com/a" ]} ] ]}),
     world_flag EmptyString).
Proof. vm_compute. reflexivity. Qed.

Example search_flag_repeated :
  search request_nobody world_repeated
  = (inr (JDict {[ "total" := JNum 0;
                   "rows" := JList [];
                   "replies" := JList [] ]}),
     world_repeated).
Proof. vm_compute. reflexivity. Qed.

(** The two gateways of the instance agree on every query without the
    key. *)
Lemma run_lenient_agrees (separate_replies : pyval) (q : list (string * string)) :
  "_separate_replies" ∉ q.*1 ->
  run_lenient request_nobody separate_replies None q
  = run request_nobody separate_replies None q.
Proof.
  intros Hno. unfold run, run_lenient.
  assert (List.find (fun item : string * string =>
                       String.eqb item.1 "_separate_replies") q = None)
    as ->; [|reflexivity].
  induction q as [|[k v] q IH]; [reflexivity|].
  rewrite fmap_cons in Hno. cbn [fst] in Hno.
  apply not_elem_of_cons in Hno as [Hne Hno].
  cbn [List.find fst].
  destruct (String.eqb_spec k "_separate_replies") as [->|_]; [congruence|].
  apply IH, Hno.
Qed.

(** With [_separate_replies=1] the flag is the string [1], the query is
    empty, and rows and replies come in the order of the index. *)
Lemma search_rows_in_gateway_order_witness :
  (forall ids, ids = ["b"; "a"] \/ ids = ["c"] ->
               map ann_id (fetch_ordered_annotations (db (world_flag "1")) ids)
               = ids)
  /\ exists out anns replies,
      search request_nobody (world_flag "1")
      = (inr (JDict out), world_flag "1")
      /\ out !! "rows" = Some (JList (map (presented request_nobody) anns))
      /\ map ann_id anns = ["b"; "a"]
      /\ out !! "replies"
         = Some (JList (map (presented request_nobody) replies))
      /\ map ann_id replies = ["c"].
Proof.
  assert (forall ids, ids = ["b"; "a"] \/ ids = ["c"] ->
            map ann_id (fetch_ordered_annotations (db (world_flag "1")) ids)
            = ids)
    as Hfetch by (intros ids [->| ->]; reflexivity).
  split; [exact Hfetch|].
  destruct (search_rows_in_gateway_order request_nobody (world_flag "1"))
    as (out & flag & query & Hall).
  cbn zeta in Hall.
  destruct Hall as (Hrun & Hcase & _ & _ & _ & _ & _ & Horder).
  assert (flag = PyStr "1" /\ query = []) as [Hflag Hquery].
  { destruct Hcase as [(Hno & _)|(before & v & after & Hw & Hno & Hf & Hq)].
    - destruct Hno. apply list_elem_of_here.
    - destruct before as [|item before].
      + injection Hw as <- <-. split; assumption.
      + injection Hw as <- _. destruct Hno. apply list_elem_of_here. }
  subst flag query.
  destruct (Horder Hfetch) as (anns & Hrows & Hids & Hreplies).
  assert (exists v, PyStr "1" = PyStr v /\ v <> EmptyString) as Hrequested
    by (exists "1"; split; [reflexivity|discriminate]).
  destruct (Hreplies Hrequested) as (replies & Hr & Hrids).
  exists out, anns, replies. repeat split; assumption.
Defined.

Lemma separate_replies_is_truthiness_witness :
  params (world_flag "false") = ([] ++ [("_separate_replies", "false")])%list
  /\ "false" <> EmptyString
  /\ exists out,
      search request_nobody (world_flag "false")
      = (inr (JDict out), world_flag "false")
      /\ out !! "replies"
         = Some (JList [
             JDict {[ "id" := JStr "c"; "uri" := JStr "http://example.com/a" ]} ]).
Proof.
  split; [reflexivity|]. split; [discriminate|].
  destruct (separate_replies_is_truthiness request_nobody (world_flag "false"))
    as (out & Hrun & _ & Hreplies & _).
  exists out. split; [exact Hrun|].
  exact (Hreplies [] "false" [] eq_refl (not_elem_of_nil _)
           ltac:(discriminate)).
Defined.

(** The key given once: the gateway that would answer differently on a
    query with the key gives the same response. *)
Lemma search_strips_separate_replies_witness :
  (occurrences "_separate_replies" (params (world_flag "1")) <= 1)%nat
  /\ run_lenient request_nobody (PyStr "1") None [("_separate_replies", "1")]
     <> run request_nobody (PyStr "1") None [("_separate_replies", "1")]
  /\ @search _ (with_Search_run collaborators run_lenient)
       request_nobody (world_flag "1")
     = search request_nobody (world_flag "1")
  /\ params (search request_nobody (world_flag "1")).2
     = [("_separate_replies", "1")].
Proof.
  assert (occurrences "_separate_replies" (params (world_flag "1")) <= 1)%nat
    as Honce by (vm_compute; lia).
  split; [exact Honce|]. split; [discriminate|].
  destruct (search_strips_separate_replies request_nobody (world_flag "1"))
    as (Hparams & _ & _ & Hsame).
  split; [|exact Hparams].
  apply (Hsame Honce). intros separate_replies q Hq. apply run_lenient_agrees, Hq.
Defined.

(** C10, as first stated, fails when the key is given twice: with
    [_separate_replies=1&_separate_replies=2] only the first occurrence is
    popped, the gateway is asked with a query that still has the key, and
    two gateways that agree on every query without the key give different
    responses. *)
Lemma search_passes_repeated_separate_replies :
  (forall separate_replies q,
      "_separate_replies" ∉ q.*1 ->
      run_lenient request_nobody separate_replies None q
      = run request_nobody separate_replies None q)
  /\ (@search _ (with_Search_run collaborators run_lenient)
        request_nobody world_repeated).1
     = inr (JDict {[
         "total" := JNum 2;
         "rows" := JList [
           JDict {[ "id" := JStr "b"; "uri" := JStr "http://example.com/b" ]};
           JDict {[ "id" := JStr "a"; "uri" := JStr "http://example.com/a" ]} ];
         "replies" := JList [
           JDict {[ "id" := JStr "c"; "uri" := JStr "http://example.com/a" ]} ] ]})
  /\ (search request_nobody world_repeated).1
     = inr (JDict {[ "total" := JNum 0;
                     "rows" := JList [];
                     "replies" := JList [] ]})
  /\ @search _ (with_Search_run collaborators run_lenient)
       request_nobody world_repeated
     <> search request_nobody world_repeated.
Proof.
  split; [exact run_lenient_agrees|].
  split; [vm_compute; reflexivity|]. split; [vm_compute; reflexivity|].
  intros Heq.
  apply (f_equal (fun r : (exn + json) * World =>
                    match r.1 with
                    | inr j => json_get ["total"] j
                    | inl _ => None
                    end)) in Heq.
  vm_compute in Heq. discriminate Heq.
Qed.

Lemma index_url_template_witness :
  route_url request_nobody "api.annotation" [("id", "123")]
  = "http://h" ++ "123" ++ ".example/api/annotations/123"
  /\ exists doc,
      index tt request_nobody world0 = (inr doc, world0)
      /\ json_get ["links"; "annotation"; "read"; "url"] doc
         = Some (JStr "http://h:id.example/api/annotations/:id").
Proof.
  split; [reflexivity|].
  destruct (index_url_template request_nobody world0)
    as (doc & Hrun & Hread & _ & _ & Hocc & _).
  exists doc. split; [exact Hrun|].
  rewrite Hread.
  rewrite (Hocc "http://h" ".example/api/annotations/123" eq_refl).
  reflexivity.
Defined.

Example read_jsonld_a :
  read_jsonld context_a request_nobody world0
  = (inr (JDict {[ "@context" := JStr "http://www.w3.org/ns/anno.jsonld";
                   "id" := JStr "a" ]}),
     mkWorld [ann_a; ann_b; ann_c] []
       (mkResponse 200 "application/ld+json"
          {[ "profile" := "http://www.w3.org/ns/anno.jsonld" ]}) []).
Proof. vm_compute. reflexivity. Qed.

(** ** Further runs *)

(** A caller's tuple of two methods, with [OPTIONS] added behind it. *)
Lemma api_config_request_method_witness :
  settings_two_methods !! "request_method"
  = Some (OTuple [OStr "GET"; OStr "HEAD"])
  /\ api_config settings_two_methods !! "request_method"
     = Some (OTuple [OStr "GET"; OStr "HEAD"; OStr "OPTIONS"]).
Proof.
  split; [reflexivity|].
  destruct (api_config_request_method settings_two_methods)
    as (methods & Hconfig & _ & _ & Htuple & _).
  rewrite Hconfig.
  rewrite (Htuple [OStr "GET"; OStr "HEAD"] eq_refl ltac:(discriminate)).
  reflexivity.
Defined.

(** The caller's renderer is kept; the missing [accept] is filled in. *)
Lemma api_config_keeps_caller_settings_witness :
  "renderer" <> "request_method"
  /\ api_config settings_two_methods !! "renderer" = Some (OStr "string")
  /\ api_config settings_two_methods !! "accept"
     = Some (OStr "application/json").
Proof.
  split; [discriminate|]. split.
  - exact (api_config_keeps_caller_settings settings_two_methods "renderer"
             ltac:(discriminate)).
  - exact (api_config_keeps_caller_settings settings_two_methods "accept"
             ltac:(discriminate)).
Defined.

Lemma registered_views_behind_cors_witness :
  (("delete", config_of "delete") ∈ registered_views)
  /\ methods_of (config_of "delete") = ["DELETE"; "OPTIONS"]
  /\ config_of "delete" !! "decorator" = Some cors_policy.
Proof.
  assert (("delete", config_of "delete") ∈ registered_views) as Hin.
  { unfold registered_views, view_settings. cbn [map fst snd].
    do 8 apply list_elem_of_further. apply list_elem_of_here. }
  split; [exact Hin|]. split; [vm_compute; reflexivity|].
  exact (proj1 (proj2 (proj2 (registered_views_behind_cors _ _ Hin)))).
Defined.

(** [read] and [update] are registered on the same route: both answer
    [OPTIONS], and nothing else in common. *)
Lemma views_share_only_options_witness :
  (("read", config_of "read") ∈ registered_views)
  /\ (("update", config_of "update") ∈ registered_views)
  /\ "read" <> "update"
  /\ shared_methods (config_of "read") (config_of "update") = ["OPTIONS"].
Proof.
  assert (("read", config_of "read") ∈ registered_views) as Hread.
  { unfold registered_views, view_settings. cbn [map fst snd].
    do 5 apply list_elem_of_further. apply list_elem_of_here. }
  assert (("update", config_of "update") ∈ registered_views) as Hupdate.
  { unfold registered_views, view_settings. cbn [map fst snd].
    do 7 apply list_elem_of_further. apply list_elem_of_here. }
  split; [exact Hread|]. split; [exact Hupdate|]. split; [discriminate|].
  destruct (views_share_only_options _ _ _ _ Hread Hupdate ltac:(discriminate))
    as [Hnone|Hoptions]; [|exact Hoptions].
  vm_compute in Hnone. discriminate Hnone.
Defined.

Lemma create_validates_then_stores_witness :
  json_body request_hello = Some payload_hello
  /\ create request_hello world0
     = (inr (JDict {[ "id" := JStr "new"; "uri" := JStr "http://x" ]}),
        mkWorld
          [ann_a; ann_b; ann_c;
           mkAnnotation "new" "http://x" "__world__" payload_hello]
          [] response0
          [mkAnnotationEvent request_hello "new" "create"]).
Proof.
  split; [reflexivity|].
  exact (create_validates_then_stores request_hello world0 payload_hello
           eq_refl).
Defined.

(** Deleting an annotation the storage does not have: the session is what
    it was, and the answer is still [deleted: true]. *)
Lemma delete_reports_deleted_witness :
  storage_delete_annotation (db world0) "gone" = inr (db world0)
  /\ exists body : gmap string json,
      (delete context_gone request_nobody world0).1 = inr (JDict body)
      /\ body !! "id" = Some (JStr "gone")
      /\ body !! "deleted" = Some (JBool true)
      /\ db (delete context_gone request_nobody world0).2
         = [ann_a; ann_b; ann_c].
Proof.
  split; [reflexivity|].
  destruct (delete_reports_deleted (C := collaborators)
              context_gone request_nobody world0 (db world0) eq_refl)
    as (body & Hrun & Hid & Hdeleted & _ & Hdb & _).
  exists body. repeat split; assumption.
Defined.

Lemma invalid_payload_responds_400_witness :
  json_body request_notext = Some (JDict {[ "uri" := JStr "http://x" ]})
  /\ respond (create request_notext) request_notext world0
     = (inr (JDict {[ "status" := JStr "failure";
                      "reason" := JStr "text: is required" ]}),
        mkWorld [ann_a; ann_b; ann_c] []
          (mkResponse 400 "application/json" ∅) [])
  /\ respond (update context_a request_notext) request_notext world0
     = (inr (JDict {[ "status" := JStr "failure";
                      "reason" := JStr "text: is required" ]}),
        mkWorld [ann_a; ann_b; ann_c] []
          (mkResponse 400 "application/json" ∅) []).
Proof.
  split; [reflexivity|].
  destruct (invalid_payload_responds_400 context_a request_notext world0
              (JDict {[ "uri" := JStr "http://x" ]})
              (mkValidationError "text: is required") eq_refl)
    as [Hcreate Hupdate].
  split.
  - exact (proj1 (Hcreate eq_refl)).
  - exact (proj1 (Hupdate eq_refl)).
Defined.

(** A storage that refuses the deletion with status 409. *)
Lemma delete_storage_error_surfaces_witness :
  @storage_delete_annotation _ frozen (db world0) "a"
  = inl (ExcAPIError (APIError_init "annotation is locked" (Some 409)))
  /\ respond (@delete _ frozen context_a request_nobody)
       request_nobody world0
     = (inr (JDict {[ "status" := JStr "failure";
                      "reason" := JStr "annotation is locked" ]}),
        mkWorld [ann_a; ann_b; ann_c] []
          (mkResponse 409 "application/json" ∅) []).
Proof.
  split; [reflexivity|].
  exact (proj1 (proj2
           (delete_storage_error_surfaces (C := frozen)
              context_a request_nobody world0
              (APIError_init "annotation is locked" (Some 409)) eq_refl))).
Defined.

(** Served from a host without [123]: only the id is rewritten. *)
Lemma index_template_replaces_id_only_witness :
  @route_url _ frozen request_nobody "api.annotation" [("id", "123")]
  = "http://h.example/api/annotations/" ++ "123" ++ EmptyString
  /\ ~ occurs "123" "http://h.example/api/annotations/"
  /\ exists doc,
      @index _ frozen tt request_nobody world0 = (inr doc, world0)
      /\ json_get ["links"; "annotation"; "read"; "url"] doc
         = Some (JStr "http://h.example/api/annotations/:id").
Proof.
  assert (~ occurs "123" "http://h.example/api/annotations/") as Hbefore.
  { intros Hocc%occurs_contains. vm_compute in Hocc. discriminate Hocc. }
  assert (~ occurs "123" EmptyString) as Hafter.
  { intros Hocc%occurs_contains. vm_compute in Hocc. discriminate Hocc. }
  split; [reflexivity|]. split; [exact Hbefore|].
  destruct (index_template_replaces_id_only (C := frozen)
              request_nobody world0
              "http://h.example/api/annotations/" EmptyString
              eq_refl Hbefore Hafter)
    as (doc & Hrun & Hread & _).
  exists doc. split; [exact Hrun|exact Hread].
Defined.
